(** * Reading plans: a shallow embedding of [public/js/reading-plans.js]

    The [ReadingPlans] object keeps three plan tables and a current plan type,
    and talks to an external [StorageManager].  Its methods are embedded as
    computations over the combined state of both objects; each definition
    cites the source lines it follows. *)

From Stdlib Require Import ZArith QArith Qabs Qround Lia Lqa.
From stdpp Require Import base strings pretty list gmap sorting.

Local Open Scope string_scope.
Local Open Scope Z_scope.

(** ** JavaScript values used by the module *)

(** A valid [Date] is represented by its time value: the whole number of
    milliseconds since the epoch that [getTime()] returns, at most
    8,640,000,000,000,000 in absolute value. *)
Definition Date := Z.

(** JavaScript numbers are IEEE 754 doubles.  [fl q] is the double nearest
    to the real number [q], the even one of two equally near: [q] is scaled
    by the unit in the last place of its binade, rounded to an integer of 53
    bits, and scaled back.  Neither overflow nor subnormal numbers are
    modelled; the quotients and differences of time values are far from
    both. *)
Definition pow2 (z : Z) : Q :=
  if 0 <=? z then inject_Z (2 ^ z) else (/ inject_Z (2 ^ (- z)))%Q.

(** The exponent [e] with [2^e <= |q| < 2^(e+1)], for [q] other than 0. *)
Definition binade (q : Q) : Z :=
  let e := Z.log2 (Z.abs (Qnum q)) - Z.log2 (Zpos (Qden q)) in
  if Qle_bool (pow2 e) (Qabs q) then e else e - 1.

Definition roundHalfEven (q : Q) : Z :=
  let f := Qfloor q in
  match (q - inject_Z f ?= 1 # 2)%Q with
  | Lt => f
  | Gt => f + 1
  | Eq => if Z.even f then f else f + 1
  end.

Definition fl (q : Q) : Q :=
  if Qeq_bool q 0 then 0%Q
  else let ulp := pow2 (binade q - 52) in
       (inject_Z (roundHalfEven (q / ulp)) * ulp)%Q.

(** [1000 * 60 * 60 * 24], line 249. *)
Definition msPerDay : Z := 1000 * 60 * 60 * 24.

(** Days between 1970-01-01 and the civil date [y]-[m]-[d] (proleptic
    Gregorian calendar), the day count behind [Date.UTC]. *)
Definition daysFromCivil (y m d : Z) : Z :=
  let y' := if m <=? 2 then y - 1 else y in
  let era := y' / 400 in
  let yoe := y' - era * 400 in
  let mp := (m + 9) mod 12 in
  let doy := (153 * mp + 2) / 5 + d - 1 in
  let doe := yoe * 365 + yoe / 4 - yoe / 100 + doy in
  era * 146097 + doe - 719468.

(** [new Date(Date.UTC(y, m - 1, d, hh, mm))]: an instant of a civil day. *)
Definition utcDate (y m d hh mm : Z) : Date :=
  daysFromCivil y m d * msPerDay + (hh * 60 + mm) * 60 * 1000.

(** Midnight UTC of a civil day. *)
Definition utcMidnight (y m d : Z) : Date := utcDate y m d 0 0.


(** Truthiness of an optional string property: [undefined] and the empty
    string are falsy. *)
Definition truthy (v : option string) : bool :=
  match v with
  | Some (String _ _) => true
  | _ => false
  end.

(** [a || b] on optional strings. *)
Definition orElse (a b : option string) : option string :=
  if truthy a then a else b.

(** [n || 3] on an optional number (lines 101, 149, 174, 223): a missing
    number and zero both give the default. *)
Definition orThree (n : option Z) : Z :=
  match n with
  | Some c => if c =? 0 then 3 else c
  | None => 3
  end.

(** A substitution [${v}] in a template literal: an absent property is
    printed as the word undefined. *)
Definition tpl (v : option string) : string :=
  match v with
  | Some s => s
  | None => "undefined"
  end.

(** [${n}] for an integer number. *)
Definition tplNum (n : Z) : string := pretty n.

(** A call either returns a value or throws. *)
Inductive outcome (A : Type) : Type :=
| Returned (a : A)
| Thrown (msg : string).
Arguments Returned {A} a.
Arguments Thrown {A} msg.

Definition throws {A} (o : outcome A) : Prop := ∃ msg, o = Thrown msg.

(** ** Plan data *)

(** An entry of a plan document: the objects found in [schedule] (NT90), in a
    month's [days] (OT365), in a month's [readings] (Ethiopian) and in the
    flattened OT365 table.  Properties a document may omit are optional. *)
Module Entry.
Record t : Type := mk {
  day : Z;
  reading : string;
  theme : option string;
  month : option string;
  focus : option string;
  feast : option string;
  chapters : option Z
}.
End Entry.

(** A month group of the OT365 document (lines 92-104). *)
Module MonthPlan.
Record t : Type := mk {
  month : option string;
  focus : option string;
  days : option (list Entry.t)   (* [None]: missing or not an array *)
}.
End MonthPlan.

(** A month group of the Ethiopian document (lines 191-212). *)
Module EthMonth.
Record t : Type := mk {
  name : option string;
  feast : option string;
  readings : option (list Entry.t)
}.
End EthMonth.

(** The parsed JSON of a plan file; each loader reads one property. *)
Record RawDocument : Type := {
  schedule : option (list Entry.t);
  monthlyPlans : option (list MonthPlan.t);
  months : option (list EthMonth.t)
}.

(** The object handed back by the reading getters. *)
Module Assignment.
Record t : Type := mk {
  day : Z;
  title : string;
  passages : list string;
  theme : option string;
  month : option string;
  focus : option string;
  feast : option string;
  chapters : Z
}.
End Assignment.

(** The records of [getPlanInfo] (lines 280-302). *)
Record PlanInfo : Type := {
  name : string;
  days : Z;
  description : string;
  totalChapters : Z;
  avgChaptersPerDay : Q
}.

(** ** State *)

(** Modelled from the spec: the external key-value store [StorageManager],
    which is not part of this source file.  Section 6 gives its interface:
    [getCurrentPlan() -> PlanType], [getStartDate(planType) -> Date|null],
    [setStartDate(planType, Date) -> void] and [getCompletedReadings()], of
    which only the length is used.  A start date that was set is the one
    read back. *)
Record StorageManager : Type := {
  currentPlan : string;
  startDates : gmap string Date;
  completedReadings : nat
}.

(** The fields of the [ReadingPlans] object (lines 6-11). *)
Record ReadingPlans : Type := {
  nt90Plan : list Entry.t;
  ot365Plan : list Entry.t;
  ethiopianPlan : list EthMonth.t;
  currentPlanType : string
}.

Record World : Type := {
  self : ReadingPlans;
  storage : StorageManager
}.

(** Lines 6-11: the object as the script defines it. *)
Definition initialPlans : ReadingPlans :=
  {| nt90Plan := []; ot365Plan := []; ethiopianPlan := [];
     currentPlanType := "nt90" |}.

(** ** Computations that read and write the state and may throw *)

Definition M (A : Type) : Type := World → outcome A * World.

Global Instance M_ret : MRet M := λ A a w, (Returned a, w).
Global Instance M_bind : MBind M := λ A B k m w,
  match m w with
  | (Returned a, w') => k a w'
  | (Thrown msg, w') => (Thrown msg, w')
  end.

Definition throw {A} (msg : string) : M A := λ w, (Thrown msg, w).

Definition result {A} (m : M A) (w : World) : outcome A := fst (m w).
Definition after {A} (m : M A) (w : World) : World := snd (m w).

(** [StorageManager.getCurrentPlan()] *)
Definition getCurrentPlan : M string :=
  λ w, (Returned (currentPlan (storage w)), w).

(** [StorageManager.getStartDate(planType)] *)
Definition getStartDate (planType : string) : M (option Date) :=
  λ w, (Returned (startDates (storage w) !! planType), w).

(** [StorageManager.setStartDate(planType, date)] *)
Definition setStartDate (planType : string) (date : Date) : M unit :=
  λ w, (Returned tt,
        {| self := self w;
           storage := {| currentPlan := currentPlan (storage w);
                         startDates := <[planType := date]> (startDates (storage w));
                         completedReadings := completedReadings (storage w) |} |}).

(** Reading a field of [this]. *)
Definition this {A} (field : ReadingPlans → A) : M A :=
  λ w, (Returned (field (self w)), w).

(** [this.currentPlanType = planType] *)
Definition setCurrentPlanType (planType : string) : M unit :=
  λ w, (Returned tt,
        {| self := {| nt90Plan := nt90Plan (self w);
                      ot365Plan := ot365Plan (self w);
                      ethiopianPlan := ethiopianPlan (self w);
                      currentPlanType := planType |};
           storage := storage w |}).

(** ** Day number (lines 231-253) *)

(** Line 252: [((diffDays % totalDays) + totalDays) % totalDays + 1], where
    [%] is the remainder of truncated division. *)
Definition cycleDay (diffDays totalDays : Z) : Z :=
  Z.rem (Z.rem diffDays totalDays + totalDays) totalDays + 1.

(** Lines 248-249: the difference of the two time values and its quotient
    by the milliseconds of a day are each rounded to a double, and
    [Math.floor] takes the floor of the rounded quotient. *)
Definition elapsedDays (date startDate : Date) : Z :=
  let diffTime := fl (inject_Z date - inject_Z startDate) in
  Qfloor (fl (diffTime / inject_Z msPerDay)).
Global Arguments elapsedDays : simpl never.

Definition calculateDayNumber (date : Date) (totalDays : Z) : M Z :=
  planType ← this currentPlanType;
  startDate ← getStartDate planType;
  match startDate with
  | None =>
      planType' ← this currentPlanType;
      setStartDate planType' date;;
      mret 1
  | Some startDate =>
      mret (cycleDay (elapsedDays date startDate) totalDays)
  end.

(** ** Arrays *)

(** [Array.prototype.find]: the first element satisfying the callback.  The
    index comes with it: [find] hands back a reference to the object stored
    at that index, and the objects of a parsed JSON array are pairwise
    distinct, so the index is the identity of what was found. *)
Definition Array_find {A} (P : A → Prop) `{∀ x, Decision (P x)} (l : list A)
  : option (nat * A) := list_find P l.
Global Arguments Array_find {A} P {_} l : simpl never.

(** [Array.prototype.sort(cmp)]: a stable sort; for a comparator that is a
    total preorder every stable sort gives this list. *)
Fixpoint sortInsert {A} (cmp : A → A → Z) (x : A) (l : list A) : list A :=
  match l with
  | [] => [x]
  | y :: l' => if cmp x y <=? 0 then x :: l else y :: sortInsert cmp x l'
  end.

Definition Array_sort {A} (cmp : A → A → Z) (l : list A) : list A :=
  foldr (sortInsert cmp) [] l.

(** ** Loading (lines 48-111) *)

(** Lines 95-102: the object pushed for one day of one month. *)
Definition flatRecord (monthPlan : MonthPlan.t) (day : Entry.t) : Entry.t :=
  {| Entry.day := Entry.day day;
     Entry.reading := Entry.reading day;
     Entry.theme := Entry.theme day;
     Entry.month := MonthPlan.month monthPlan;
     Entry.focus := MonthPlan.focus monthPlan;
     Entry.feast := None;
     Entry.chapters := Some (orThree (Entry.chapters day)) |}.

(** Lines 93-104: what one month contributes. *)
Definition monthDays (monthPlan : MonthPlan.t) : list Entry.t :=
  default [] (MonthPlan.days monthPlan).

(** Lines 91-106: the pushes, in order. *)
Definition pushedRecords (data : RawDocument) : list Entry.t :=
  match monthlyPlans data with
  | Some plans =>
      plans ≫= λ monthPlan, flatRecord monthPlan <$> monthDays monthPlan
  | None => []
  end.

(** Line 109: [(a, b) => a.day - b.day]. *)
Definition byDay (a b : Entry.t) : Z := Entry.day a - Entry.day b.

Definition flattenOT365Plan (data : RawDocument) : list Entry.t :=
  Array_sort byDay (pushedRecords data).

(** Lines 49-53 and [fileMap[planType]]: the own keys of the map; looking up
    any other key finds [undefined] unless [Object.prototype] has it. *)
Definition fileMap (planType : string) : option string :=
  if String.eqb planType "nt90" then Some "data/reading-plans/nt90.json"
  else if String.eqb planType "ot365" then Some "data/reading-plans/ot365.json"
  else if String.eqb planType "ethiopian"
       then Some "data/reading-plans/ethiopian-calendar.json"
  else None.

(** The property names every object inherits from [Object.prototype]; each
    holds a function or an object, hence a truthy value. *)
Definition Object_prototype : list string :=
  [ "constructor"; "hasOwnProperty"; "isPrototypeOf"; "propertyIsEnumerable";
    "toLocaleString"; "toString"; "valueOf"; "__proto__";
    "__defineGetter__"; "__defineSetter__"; "__lookupGetter__";
    "__lookupSetter__" ].

Definition inherited (key : string) : bool :=
  bool_decide (key ∈ Object_prototype).

Definition setTables (nt ot : list Entry.t) (eth : list EthMonth.t) : M unit :=
  λ w, (Returned tt,
        {| self := {| nt90Plan := nt; ot365Plan := ot; ethiopianPlan := eth;
                      currentPlanType := currentPlanType (self w) |};
           storage := storage w |}).

(** Lines 48-85.  [fetched] is what [fetch] and [response.json()] deliver:
    [None] stands for every failure caught at line 81. *)
Definition loadPlanFromFile (planType : string) (fetched : option RawDocument)
  : M bool :=
  if bool_decide (is_Some (fileMap planType)) || inherited planType then
    match fetched with
    | None => mret false
    | Some data =>
        nt ← this nt90Plan;
        ot ← this ot365Plan;
        eth ← this ethiopianPlan;
        (if String.eqb planType "nt90"
         then setTables (default [] (schedule data)) ot eth
         else if String.eqb planType "ot365"
         then setTables nt (flattenOT365Plan data) eth
         else if String.eqb planType "ethiopian"
         then setTables nt ot (default [] (months data))
         else mret tt);;
        mret true
    end
  else throw ("Unknown plan type: " +:+ planType).

(** ** Readings (lines 114-228 and 256-276) *)

(** Lines 260-266. *)
Definition otFallback (dayNumber : Z) : Assignment.t :=
  {| Assignment.day := dayNumber;
     Assignment.title := "OT365 Day " +:+ tplNum dayNumber;
     Assignment.passages := ["Genesis 1-3"];
     Assignment.theme := Some "Creation & Fall";
     Assignment.month := None;
     Assignment.focus := None;
     Assignment.feast := None;
     Assignment.chapters := 3 |}.

(** Lines 268-274. *)
Definition ntFallback (dayNumber : Z) : Assignment.t :=
  {| Assignment.day := dayNumber;
     Assignment.title := "NT90 Day " +:+ tplNum dayNumber;
     Assignment.passages := ["Matthew 1-4"];
     Assignment.theme := Some "Birth & Early Ministry";
     Assignment.month := None;
     Assignment.focus := None;
     Assignment.feast := None;
     Assignment.chapters := 4 |}.

(** Lines 256-276. *)
Definition getFallbackReading (date : Date) (totalDays : Z) (testament : string)
  : M Assignment.t :=
  dayNumber ← calculateDayNumber date totalDays;
  if String.eqb testament "OT" then mret (otFallback dayNumber)
  else mret (ntFallback dayNumber).

(** Lines 144-150. *)
Definition nt90Assignment (reading : Entry.t) : Assignment.t :=
  {| Assignment.day := Entry.day reading;
     Assignment.title :=
       "Day " +:+ tplNum (Entry.day reading) +:+ ": " +:+ tpl (Entry.theme reading);
     Assignment.passages := [Entry.reading reading];
     Assignment.theme := Entry.theme reading;
     Assignment.month := None;
     Assignment.focus := None;
     Assignment.feast := None;
     Assignment.chapters := orThree (Entry.chapters reading) |}.

(** Lines 134-154. *)
Definition getNT90Reading (date : Date) : M Assignment.t :=
  dayNumber ← calculateDayNumber date 90;
  plan ← this nt90Plan;
  if bool_decide (length plan = 0%nat) then getFallbackReading date 90 "NT"
  else
    match Array_find (λ r, Entry.day r = dayNumber) plan with
    | Some (_, reading) => mret (nt90Assignment reading)
    | None => getFallbackReading date 90 "NT"
    end.

(** Lines 167-175. *)
Definition ot365Assignment (reading : Entry.t) : Assignment.t :=
  {| Assignment.day := Entry.day reading;
     Assignment.title :=
       "Day " +:+ tplNum (Entry.day reading) +:+ ": " +:+ tpl (Entry.theme reading);
     Assignment.passages := [Entry.reading reading];
     Assignment.theme := Entry.theme reading;
     Assignment.month := Entry.month reading;
     Assignment.focus := Entry.focus reading;
     Assignment.feast := None;
     Assignment.chapters := orThree (Entry.chapters reading) |}.

(** Lines 157-179. *)
Definition getOT365Reading (date : Date) : M Assignment.t :=
  dayNumber ← calculateDayNumber date 365;
  plan ← this ot365Plan;
  if bool_decide (length plan = 0%nat) then getFallbackReading date 365 "OT"
  else
    match Array_find (λ r, Entry.day r = dayNumber) plan with
    | Some (_, reading) => mret (ot365Assignment reading)
    | None => getFallbackReading date 365 "OT"
    end.

(** Line 198: [readings?.length || 0]. *)
Definition readingCount (month : EthMonth.t) : Z :=
  match EthMonth.readings month with
  | Some readings => Z.of_nat (length readings)
  | None => 0
  end.

(** Lines 195-199, with [monthIndex] the position of the month being
    visited: the months of a parsed document are distinct objects, so
    [indexOf(month)] is that position. *)
Definition daysSoFar (plan : list EthMonth.t) (monthIndex : nat) : Z :=
  foldl (λ acc i, acc + from_option readingCount 0 (plan !! i)) 0
        (seq 0 monthIndex).

(** Line 200. *)
Definition readingDayNumber (plan : list EthMonth.t) (monthIndex : nat)
    (r : Entry.t) : Z :=
  daysSoFar plan monthIndex + Entry.day r.

(** Lines 205-209. *)
Definition mergedReading (month : EthMonth.t) (monthReading : Entry.t) : Entry.t :=
  {| Entry.day := Entry.day monthReading;
     Entry.reading := Entry.reading monthReading;
     Entry.theme := Entry.theme monthReading;
     Entry.month := EthMonth.name month;
     Entry.focus := Entry.focus monthReading;
     Entry.feast := orElse (Entry.feast monthReading) (EthMonth.feast month);
     Entry.chapters := Entry.chapters monthReading |}.

(** Lines 190-213: the loop over the months still to visit, [monthIndex]
    being the position of the first of them.  The positions of the month and
    of the reading found are returned with the merged object. *)
Fixpoint forMonths (plan : list EthMonth.t) (dayNumber : Z) (monthIndex : nat)
    (rest : list EthMonth.t) : option (nat * nat * Entry.t) :=
  match rest with
  | [] => None
  | month :: rest' =>
      match EthMonth.readings month with
      | Some readings =>
          match Array_find (λ r, readingDayNumber plan monthIndex r = dayNumber)
                           readings with
          | Some (j, monthReading) =>
              Some (monthIndex, j, mergedReading month monthReading)
          | None => forMonths plan dayNumber (S monthIndex) rest'
          end
      | None => forMonths plan dayNumber (S monthIndex) rest'
      end
  end.

(** Lines 216-224. *)
Definition ethiopianAssignment (dayNumber : Z) (reading : Entry.t) : Assignment.t :=
  {| Assignment.day := dayNumber;
     Assignment.title :=
       tpl (Entry.month reading) +:+ " Day " +:+ tplNum (Entry.day reading)
       +:+ (if truthy (Entry.feast reading)
            then " - " +:+ tpl (Entry.feast reading) else EmptyString);
     Assignment.passages := [Entry.reading reading];
     Assignment.theme := Entry.theme reading;
     Assignment.month := Entry.month reading;
     Assignment.focus := None;
     Assignment.feast := Entry.feast reading;
     Assignment.chapters := orThree (Entry.chapters reading) |}.

(** Lines 182-228. *)
Definition getEthiopianReading (date : Date) : M Assignment.t :=
  dayNumber ← calculateDayNumber date 365;
  plan ← this ethiopianPlan;
  if bool_decide (length plan = 0%nat) then getFallbackReading date 365 "OT"
  else
    match forMonths plan dayNumber 0 plan with
    | Some (_, _, reading) => mret (ethiopianAssignment dayNumber reading)
    | None => getFallbackReading date 365 "OT"
    end.

(** Lines 114-131.  [planType] is [None] for an omitted or [null] argument. *)
Definition getReadingForDate (date : Date) (planType : option string)
  : M Assignment.t :=
  match planType with
  | Some (String _ _ as given) => setCurrentPlanType given
  | _ => stored ← getCurrentPlan; setCurrentPlanType stored
  end;;
  current ← this currentPlanType;
  if String.eqb current "nt90" then getNT90Reading date
  else if String.eqb current "ot365" then getOT365Reading date
  else if String.eqb current "ethiopian" then getEthiopianReading date
  else getNT90Reading date.

(** ** Plan information (lines 279-305) *)

Definition nt90Info : PlanInfo :=
  {| name := "90-Day New Testament";
     days := 90;
     description := "Read through the New Testament in 90 days";
     totalChapters := 260;
     avgChaptersPerDay := 2.89 |}.

Definition ot365Info : PlanInfo :=
  {| name := "OT365 Challenge";
     days := 365;
     description := "Read entire Old Testament in one year";
     totalChapters := 929;
     avgChaptersPerDay := 2.54 |}.

Definition ethiopianInfo : PlanInfo :=
  {| name := "Ethiopian Calendar Plan";
     days := 365;
     description := "Bible reading following Ethiopian calendar with feast days";
     totalChapters := 929;
     avgChaptersPerDay := 2.54 |}.

(** What [info[planType] || info.nt90] can evaluate to: one of the three
    records, or a member of [Object.prototype] when the key names one. *)
Inductive InfoValue : Type :=
| Info (info : PlanInfo)
| PrototypeMember (key : string).

Definition getPlanInfo (planType : string) : outcome InfoValue :=
  Returned
    (if String.eqb planType "nt90" then Info nt90Info
     else if String.eqb planType "ot365" then Info ot365Info
     else if String.eqb planType "ethiopian" then Info ethiopianInfo
     else if inherited planType then PrototypeMember planType
     else Info nt90Info).

(** The enumerated plan types. *)
Definition knownPlanType (planType : string) : Prop :=
  planType = "nt90" ∨ planType = "ot365" ∨ planType = "ethiopian".

(** ** Initialisation (lines 14-45) *)

(** [Promise.allSettled]: a load that throws is recorded, not propagated. *)
Definition settled {A} (m : M A) : M (outcome A) :=
  λ w, (Returned (fst (m w)), snd (m w)).

(** The loads of lines 19-25, run in the order in which their fetches
    complete.  Each load assigns at most its own table, in one step after
    its document has arrived (lines 68-78), so a run of [init] is one such
    sequence. *)
Fixpoint loadAll (loads : list (string * option RawDocument)) : M unit :=
  match loads with
  | [] => mret tt
  | (planType, fetched) :: rest =>
      settled (loadPlanFromFile planType fetched);; loadAll rest
  end.

(** Lines 14-45, the fetches completing in the order of line 19-23; the
    [catch] of line 41 throws again what reached it. *)
Definition init (nt90 ot365 ethiopian : option RawDocument) : M bool :=
  loadAll [("nt90", nt90); ("ot365", ot365); ("ethiopian", ethiopian)];;
  stored ← getCurrentPlan;
  setCurrentPlanType stored;;
  mret true.

(** ** Statistics and suggested time (lines 307-327) *)

(** [StorageManager.getCompletedReadings().length] *)
Definition getCompletedReadings : M Z :=
  λ w, (Returned (Z.of_nat (completedReadings (storage w))), w).

(** [Math.round] and [Math.ceil] on a rational: the nearest integer, a tie
    going up, and the least integer not below. *)
Definition Math_round (x : Q) : Z := Qfloor (x + (1 # 2))%Q.
Definition Math_ceil (x : Q) : Z := Qceiling x.

(** The object of lines 313-319.  [None] is [undefined] for [totalDays] and
    [avgChaptersPerDay] and [NaN] for [percent] and [remaining]: what the
    arithmetic gives when [info] is a member of [Object.prototype], which
    has no [days]. *)
Module Stats.
Record t : Type := mk {
  totalDays : option Z;
  completed : Z;
  percent : option Z;
  remaining : option Z;
  avgChaptersPerDay : option Q
}.
End Stats.

(** Line 311, for the records of [getPlanInfo]: the quotient is taken
    exactly.  In doubles the two roundings move it by less than its distance
    to the nearest half-integer, which is at least 1/730 for [days] 90 or
    365, for every array length. *)
Definition percentOf (completed days : Z) : Z :=
  Math_round (inject_Z completed / inject_Z days * 100)%Q.

(** Lines 308-320. *)
Definition getReadingStats (planType : string) : M Stats.t :=
  match getPlanInfo planType with
  | Returned (Info info) =>
      completed ← getCompletedReadings;
      mret {| Stats.totalDays := Some (days info);
              Stats.completed := completed;
              Stats.percent := Some (percentOf completed (days info));
              Stats.remaining := Some (days info - completed);
              Stats.avgChaptersPerDay := Some (avgChaptersPerDay info) |}
  | Returned (PrototypeMember _) =>
      completed ← getCompletedReadings;
      mret {| Stats.totalDays := None;
              Stats.completed := completed;
              Stats.percent := None;
              Stats.remaining := None;
              Stats.avgChaptersPerDay := None |}
  | Thrown msg => throw msg
  end.

(** Lines 323-327. *)
Definition getSuggestedTime (planType : string) : outcome string :=
  match getPlanInfo planType with
  | Returned (Info info) =>
      let minutes := Math_ceil (avgChaptersPerDay info * 5)%Q in
      Returned (tplNum minutes +:+ "-" +:+ tplNum (minutes + 10) +:+ " min")
  | Returned (PrototypeMember _) => Returned "NaN-NaN min"
  | Thrown msg => Thrown msg
  end.

(** ** Auxiliary definitions used in the statements *)

(** The world after today was adopted as the start date (lines 237-238). *)
Definition adopted (date : Date) (w : World) : World :=
  after (setStartDate (currentPlanType (self w)) date) w.

(** The day number a call computes, whatever the store holds. *)
Definition dayNumberAt (date : Date) (L : Z) (w : World) : Z :=
  match startDates (storage w) !! currentPlanType (self w) with
  | Some start => cycleDay (elapsedDays date start) L
  | None => 1
  end.

(** A world whose current plan [nt90] was started on 2024-01-01. *)
Definition world2024 : World :=
  {| self := initialPlans;
     storage := {| currentPlan := "nt90";
                   startDates := {[ "nt90" := utcMidnight 2024 1 1 ]};
                   completedReadings := 0 |} |}.


(** The plan type [getReadingForDate] settles on (lines 115-119): the
    argument when it is truthy, the stored current plan otherwise. *)
Definition chosenPlan (planType : option string) (w : World) : string :=
  match planType with
  | Some (String _ _ as given) => given
  | _ => currentPlan (storage w)
  end.

(** The world after [this.currentPlanType = planType]. *)
Definition withPlan (planType : string) (w : World) : World :=
  after (setCurrentPlanType planType) w.

(** The world a call of [calculateDayNumber] leaves: the start date is
    adopted when none is stored, and nothing changes otherwise. *)
Definition withStart (date : Date) (w : World) : World :=
  match startDates (storage w) !! currentPlanType (self w) with
  | Some _ => w
  | None => adopted date w
  end.

(** The order the comparator of line 109 sorts by. *)
Definition dayLe (a b : Entry.t) : Prop := Entry.day a ≤ Entry.day b.

(** An OT365 document whose days are out of order across and inside months,
    with a month that has no [days] array. *)
Definition sampleDay (d : Z) (chapters : option Z) : Entry.t :=
  Entry.mk d "Genesis 1-3" (Some "Creation") None None None chapters.

Definition january : MonthPlan.t :=
  MonthPlan.mk (Some "January") (Some "Beginnings")
               (Some [sampleDay 3 None; sampleDay 1 (Some 5)]).

Definition february : MonthPlan.t :=
  MonthPlan.mk (Some "February") (Some "Exodus")
               (Some [sampleDay 2 (Some 0)]).

Definition sampleOT365 : RawDocument :=
  {| schedule := None;
     monthlyPlans := Some [january; MonthPlan.mk None None None; february];
     months := None |}.

(** The readings of a month, none when the property is missing. *)
Definition monthReadings (month : EthMonth.t) : list Entry.t :=
  default [] (EthMonth.readings month).

(** The sum of the reading counts of a run of months. *)
Definition sumCounts (months : list EthMonth.t) : Z :=
  foldr (λ month acc, readingCount month + acc) 0 months.

(** Ethiopian months for the examples. *)
Definition ethReading (d : Z) : Entry.t :=
  Entry.mk d "Psalm 1" (Some "Praise") None None None None.

Definition ethMonth (name : string) (days : list Z) : EthMonth.t :=
  EthMonth.mk (Some name) None (Some (ethReading <$> days)).

(** A world whose current plan is the Ethiopian one, started on 2024-01-01. *)
Definition worldEthiopian (plan : list EthMonth.t) : World :=
  {| self := {| nt90Plan := []; ot365Plan := []; ethiopianPlan := plan;
                currentPlanType := "ethiopian" |};
     storage := {| currentPlan := "ethiopian";
                   startDates := {[ "ethiopian" := utcMidnight 2024 1 1 ]};
                   completedReadings := 0 |} |}.

(** Counts [2; 1; 2]; the first month lists a reading for its fifth day. *)
Definition sparsePlan : list EthMonth.t :=
  [ethMonth "Meskerem" [1; 5]; ethMonth "Tikimt" [1]; ethMonth "Hidar" [1; 2]].

(** Counts [2; 1; 2], every month numbering its readings from 1. *)
Definition densePlan : list EthMonth.t :=
  [ethMonth "Meskerem" [1; 2]; ethMonth "Tikimt" [1]; ethMonth "Hidar" [1; 2]].

(** A first month without readings. *)
Definition emptyFirstMonthPlan : list EthMonth.t :=
  [ethMonth "Meskerem" []; ethMonth "Tikimt" [1; 2]].

(** No reading before position [j] of month [m], in plan order, has [n] as
    its derived day number. *)
Definition firstWith (plan : list EthMonth.t) (n : Z) (m j : nat) : Prop :=
  (∀ month j' r', plan !! m = Some month → monthReadings month !! j' = Some r' →
                  (j' < j)%nat → sumCounts (take m plan) + Entry.day r' ≠ n) ∧
  (∀ m' month' r', (m' < m)%nat → plan !! m' = Some month' →
                   r' ∈ monthReadings month' →
                   sumCounts (take m' plan) + Entry.day r' ≠ n).

(** The world in which the table of [planType] has been replaced by what
    lines 68-78 take from [data]; other plan types leave every table alone. *)
Definition ingested (planType : string) (data : RawDocument) (w : World) : World :=
  {| self :=
       {| nt90Plan := if String.eqb planType "nt90"
                      then default [] (schedule data) else nt90Plan (self w);
          ot365Plan := if String.eqb planType "ot365"
                       then flattenOT365Plan data else ot365Plan (self w);
          ethiopianPlan := if String.eqb planType "ethiopian"
                           then default [] (months data)
                           else ethiopianPlan (self w);
          currentPlanType := currentPlanType (self w) |};
     storage := storage w |}.

(** What a load leaves, whether or not the fetch delivered a document. *)
Definition loaded (load : string * option RawDocument) (w : World) : World :=
  match load.2 with
  | Some data => ingested load.1 data w
  | None => w
  end.

(** The cycle length the getters use for the plan type settled on. *)
Definition cycleLength (planType : string) : Z :=
  if String.eqb planType "ot365" then 365
  else if String.eqb planType "ethiopian" then 365
  else 90.

(** An NT90 document with two entries. *)
Definition sampleNT90 : RawDocument :=
  {| schedule := Some [sampleDay 1 None; sampleDay 2 (Some 4)];
     monthlyPlans := None;
     months := None |}.

(** A month that numbers its readings 1, 2, 3, ... in the order it lists
    them. *)
Definition numbered (month : EthMonth.t) : Prop :=
  ∀ j r, monthReadings month !! j = Some r → Entry.day r = Z.of_nat j + 1.

(** An OT365 document whose days come in order. *)
Definition sortedOT365 : RawDocument :=
  {| schedule := None;
     monthlyPlans :=
       Some [MonthPlan.mk (Some "January") None
                          (Some [sampleDay 1 None; sampleDay 2 None]);
             february];
     months := None |}.

(** A plan whose only month has a feast of its own; its first reading has a
    feast label, its second an empty one, its third none. *)
Definition feastPlan : list EthMonth.t :=
  [EthMonth.mk (Some "Meskerem") (Some "Enkutatash")
     (Some [Entry.mk 1 "Psalm 1" None None None (Some "Meskel") None;
            Entry.mk 2 "Psalm 2" None None None (Some EmptyString) None;
            Entry.mk 3 "Psalm 3" None None None None None])].

(** A time value a [Date] can hold. *)
Definition validDate (t : Date) : Prop := Z.abs t ≤ 8640000000000000.

(** Two instants less than 2^53 milliseconds, some 285,000 years, apart:
    the distance up to which every whole number of milliseconds is a
    double. *)
Definition near (a b : Date) : Prop := Z.abs (a - b) < 2 ^ 53.

(** A world whose current plan [nt90] was started at the earliest instant a
    [Date] can hold. *)
Definition worldEarliestStart : World :=
  {| self := initialPlans;
     storage := {| currentPlan := "nt90";
                   startDates := {[ "nt90" := -8640000000000000 ]};
                   completedReadings := 0 |} |}.

(** * Properties *)

(** Unfolds the plumbing of a computation applied to a world. *)
Ltac run :=
  unfold result, after, mbind, M_bind, mret, M_ret, throw, this,
    getCurrentPlan, getStartDate, setStartDate, setCurrentPlanType,
    setTables; simpl.

(** ** The day number *)

(** The double remainder of line 252 is the non-negative residue. *)
Lemma rem_wrap (d L : Z) : 0 < L → Z.rem (Z.rem d L + L) L = d mod L.
Proof.
  intros HL.
  assert (Hr : - L < Z.rem d L < L).
  { pose proof (Z.rem_bound_abs d L ltac:(lia)). lia. }
  rewrite Z.rem_mod_nonneg by lia.
  rewrite <- (Z.mod_unique d L
                (Z.quot d L + (if Z.rem d L <? 0 then -1 else 0))
                ((Z.rem d L + L) mod L)).
  - reflexivity.
  - left. apply Z.mod_pos_bound. lia.
  - pose proof (Z.quot_rem' d L) as Hq.
    destruct (Z.ltb_spec (Z.rem d L) 0).
    + rewrite Z.mod_small by lia. lia.
    + destruct (Z.eq_dec (Z.rem d L) 0) as [E|E].
      * rewrite E in *. rewrite Z.add_0_l, Z.mod_same by lia. lia.
      * replace (Z.rem d L + L) with (Z.rem d L + 1 * L) by lia.
        rewrite Z.mod_add by lia. rewrite Z.mod_small by lia. lia.
Qed.

Lemma cycleDay_mod (d L : Z) : 0 < L → cycleDay d L = d mod L + 1.
Proof. intros HL. unfold cycleDay. now rewrite rem_wrap. Qed.

Lemma cycleDay_range (d L : Z) : 0 < L → 1 ≤ cycleDay d L ≤ L.
Proof.
  intros HL. rewrite cycleDay_mod by done.
  pose proof (Z.mod_pos_bound d L HL). lia.
Qed.

Lemma cycleDay_shift (d L : Z) : 0 < L → cycleDay (d + L) L = cycleDay d L.
Proof.
  intros HL. rewrite !cycleDay_mod by done.
  replace (d + L) with (d + 1 * L) by lia. now rewrite Z.mod_add by lia.
Qed.

(** *** Doubles *)

Lemma inject_Z_pos z : 0 < z → (0 < inject_Z z)%Q.
Proof. intros H. unfold Qlt. simpl. lia. Qed.

Lemma pow2_nonneg_exp z : 0 ≤ z → pow2 z = inject_Z (2 ^ z).
Proof. intros H. unfold pow2. by rewrite (proj2 (Z.leb_le 0 z) H). Qed.

Lemma pow2_nonpos_exp z : z ≤ 0 → (pow2 z == / inject_Z (2 ^ (- z)))%Q.
Proof.
  intros H. unfold pow2. destruct (Z.leb_spec 0 z); [| reflexivity].
  assert (z = 0) as -> by lia. reflexivity.
Qed.

(** The binade found does not lie above the number. *)
Lemma binade_le q : ¬ (q == 0)%Q → (pow2 (binade q) <= Qabs q)%Q.
Proof.
  intros Hq. unfold binade.
  set (e := Z.log2 (Z.abs (Qnum q)) - Z.log2 (Z.pos (Qden q))).
  destruct (Qle_bool (pow2 e) (Qabs q)) eqn:E; [by apply Qle_bool_iff |].
  destruct q as [n d]. cbn [Qnum Qden] in e.
  assert (Hn : 0 < Z.abs n).
  { destruct (Z.eq_dec n 0) as [->|]; [| lia]. destruct Hq. reflexivity. }
  destruct (Z.log2_spec _ Hn) as [Ha1 Ha2].
  destruct (Z.log2_spec (Z.pos d) ltac:(lia)) as [Hb1 Hb2].
  pose proof (Z.log2_nonneg (Z.abs n)) as Ha0.
  pose proof (Z.log2_nonneg (Z.pos d)) as Hb0.
  set (a := Z.log2 (Z.abs n)) in *. set (b := Z.log2 (Z.pos d)) in *.
  change (Qabs (n # d)) with (Z.abs n # d).
  destruct (Z.le_gt_cases 0 (e - 1)) as [Hk|Hk].
  - rewrite pow2_nonneg_exp by done. unfold Qle. simpl.
    assert (2 ^ a = 2 ^ (e - 1) * 2 ^ Z.succ b).
    { rewrite <- Z.pow_add_r by lia. f_equal. unfold e. lia. }
    pose proof (Z.pow_pos_nonneg 2 (e - 1) Z.lt_0_2 Hk). nia.
  - rewrite pow2_nonpos_exp by lia.
    apply Qle_shift_inv_r.
    { apply inject_Z_pos. apply Z.pow_pos_nonneg; lia. }
    unfold Qle. simpl.
    assert (2 ^ Z.succ b = 2 ^ a * 2 ^ (- (e - 1))).
    { rewrite <- Z.pow_add_r by lia. f_equal. unfold e. lia. }
    assert (0 < 2 ^ (- (e - 1))) by (apply Z.pow_pos_nonneg; lia). nia.
Qed.

Lemma roundHalfEven_Z q k : (q == inject_Z k)%Q → roundHalfEven q = k.
Proof.
  intros H. unfold roundHalfEven. cbv zeta.
  rewrite (Qfloor_comp _ _ H), Qfloor_Z.
  destruct (Qcompare_spec (q - inject_Z k) (1 # 2)) as [H'|H'|H'];
    [| done |]; rewrite H in H'; lra.
Qed.

Lemma roundHalfEven_bounds q :
  Qfloor q ≤ roundHalfEven q ∧ (inject_Z (roundHalfEven q) <= q + (1 # 2))%Q.
Proof.
  unfold roundHalfEven. cbv zeta. pose proof (Qfloor_le q) as Hf.
  destruct (Qcompare_spec (q - inject_Z (Qfloor q)) (1 # 2)) as [H|H|H].
  - destruct (Z.even (Qfloor q)); (split; [lia |]);
      rewrite ?inject_Z_plus; change (inject_Z 1) with 1%Q; lra.
  - split; [lia | lra].
  - split; [lia |]. rewrite inject_Z_plus. change (inject_Z 1) with 1%Q. lra.
Qed.

Lemma Qfloor_unique q n :
  (inject_Z n <= q)%Q → (q < inject_Z (n + 1))%Q → Qfloor q = n.
Proof.
  intros Hle Hlt.
  pose proof (Qfloor_le q) as H1. pose proof (Qlt_floor q) as H2.
  assert (H3 : (inject_Z n < inject_Z (Qfloor q + 1))%Q) by lra.
  assert (H4 : (inject_Z (Qfloor q) < inject_Z (n + 1))%Q) by lra.
  rewrite <- Zlt_Qlt in H3, H4. lia.
Qed.

(** Whole numbers below 2^53 are doubles. *)
Lemma fl_Z q x : (q == inject_Z x)%Q → Z.abs x < 2 ^ 53 → (fl q == inject_Z x)%Q.
Proof.
  intros Hq Hx. unfold fl.
  destruct (Qeq_bool q 0) eqn:E.
  { apply Qeq_bool_iff in E. rewrite <- Hq. by symmetry. }
  apply Qeq_bool_neq in E. pose proof (binade_le q E) as Hb.
  set (e := binade q) in *.
  assert (He : e ≤ 52).
  { destruct (Z.le_gt_cases e 52) as [|Hgt]; [done | exfalso].
    rewrite pow2_nonneg_exp in Hb by lia.
    assert (Habs : (Qabs q < inject_Z (2 ^ 53))%Q).
    { apply Qabs_Qlt_condition. rewrite Hq, <- inject_Z_opp, <- !Zlt_Qlt. lia. }
    assert (Hlt : (inject_Z (2 ^ e) < inject_Z (2 ^ 53))%Q) by lra.
    rewrite <- Zlt_Qlt in Hlt.
    assert (2 ^ 53 ≤ 2 ^ e) by (apply Z.pow_le_mono_r; lia). lia. }
  cbv zeta. pose proof (pow2_nonpos_exp (e - 52) ltac:(lia)) as Hu.
  set (ulp := pow2 (e - 52)) in *. set (P := 2 ^ (- (e - 52))) in *.
  assert (HP : 0 < P) by (apply Z.pow_pos_nonneg; lia).
  assert (HPq : (0 < inject_Z P)%Q) by by apply inject_Z_pos.
  assert (Hm : (q / ulp == inject_Z (x * P))%Q).
  { rewrite Hu, inject_Z_mult, Hq. field. lra. }
  rewrite (roundHalfEven_Z _ _ Hm), Hu, inject_Z_mult. field. lra.
Qed.

(** Rounding the quotient of a whole number below 2^53 by the milliseconds
    of a day does not move it across a whole number: the quotient is at
    least 1/86400000 below the next one and less than 2^27, where doubles
    are 2^-26 apart. *)
Lemma floor_fl_div q y :
  (q == inject_Z y / inject_Z msPerDay)%Q → Z.abs y < 2 ^ 53 →
  Qfloor (fl q) = y / msPerDay.
Proof.
  intros Hq Hy. change msPerDay with 86400000 in *.
  set (n := y / 86400000).
  assert (Hn : n * 86400000 ≤ y < n * 86400000 + 86400000).
  { assert (Hc0 : 0 < 86400000) by lia.
    pose proof (Z.div_mod y 86400000 ltac:(lia)).
    pose proof (Z.mod_pos_bound y 86400000 Hc0). subst n. lia. }
  assert (Hc : (0 < inject_Z 86400000)%Q) by (by apply inject_Z_pos).
  unfold fl. destruct (Qeq_bool q 0) eqn:E.
  { apply Qeq_bool_iff in E. rewrite E in Hq.
    assert (y = 0).
    { assert (Hy0 : (inject_Z y == 0)%Q).
      { rewrite <- (Qmult_div_r (inject_Z y) (inject_Z 86400000)) by lra.
        rewrite <- Hq. ring. }
      unfold Qeq in Hy0. simpl in Hy0. lia. }
    subst y. simpl. symmetry. subst n. reflexivity. }
  apply Qeq_bool_neq in E. pose proof (binade_le q E) as Hb.
  set (e := binade q) in *.
  assert (He : e ≤ 26).
  { destruct (Z.le_gt_cases e 26) as [|Hgt]; [done | exfalso].
    rewrite pow2_nonneg_exp in Hb by lia.
    assert (Habs : (Qabs q < inject_Z (2 ^ 27))%Q).
    { apply Qabs_Qlt_condition. rewrite Hq. split.
      - apply Qlt_shift_div_l; [done |].
        rewrite <- inject_Z_opp, <- inject_Z_mult, <- Zlt_Qlt. lia.
      - apply Qlt_shift_div_r; [done |].
        rewrite <- inject_Z_mult, <- Zlt_Qlt. lia. }
    assert (Hlt : (inject_Z (2 ^ e) < inject_Z (2 ^ 27))%Q) by lra.
    rewrite <- Zlt_Qlt in Hlt.
    assert (2 ^ 27 ≤ 2 ^ e) by (apply Z.pow_le_mono_r; lia). lia. }
  cbv zeta. pose proof (pow2_nonpos_exp (e - 52) ltac:(lia)) as Hu.
  set (ulp := pow2 (e - 52)) in *. set (P := 2 ^ (- (e - 52))) in *.
  assert (HP : 2 ^ 26 ≤ P) by (apply Z.pow_le_mono_r; lia).
  assert (HPq : (0 < inject_Z P)%Q) by (apply inject_Z_pos; lia).
  set (m := (q / ulp)%Q).
  assert (Hm : (m == inject_Z (y * P) / inject_Z 86400000)%Q).
  { unfold m. rewrite Hu, inject_Z_mult, Hq. field. lra. }
  destruct (roundHalfEven_bounds m) as [Hlo Hhi].
  set (m' := roundHalfEven m) in *.
  assert (Hlow : n * P ≤ m').
  { etrans; [| exact Hlo]. rewrite <- (Qfloor_Z (n * P)).
    apply Qfloor_resp_le. rewrite Hm.
    apply Qle_shift_div_l; [done |].
    rewrite <- inject_Z_mult, <- Zle_Qle. nia. }
  assert (Hupp : m' < (n + 1) * P).
  { rewrite Zlt_Qlt.
    assert (Hmm : (m < inject_Z ((n + 1) * P) - (1 # 2))%Q).
    { rewrite Hm. apply Qlt_shift_div_r; [done |].
      assert (Hz : 2 * (y * P) + 86400000 < 2 * ((n + 1) * P * 86400000)) by nia.
      rewrite Zlt_Qlt in Hz.
      repeat (rewrite inject_Z_plus in Hz || rewrite inject_Z_mult in Hz).
      repeat (rewrite inject_Z_plus || rewrite inject_Z_mult).
      change (inject_Z 2) with 2%Q in Hz. lra. }
    lra. }
  rewrite (Qfloor_comp _ (inject_Z m' * / inject_Z P)) by (by rewrite Hu).
  change (inject_Z m' * / inject_Z P)%Q with (inject_Z m' / inject_Z P)%Q.
  apply Qfloor_unique.
  - apply Qle_shift_div_l; [done |].
    by rewrite <- inject_Z_mult, <- Zle_Qle.
  - apply Qlt_shift_div_r; [done |].
    by rewrite <- inject_Z_mult, <- Zlt_Qlt.
Qed.

(** For instants less than 2^53 milliseconds apart lines 248-249 compute the
    floor of the exact quotient. *)
Lemma elapsedDays_exact date start :
  near date start → elapsedDays date start = (date - start) / msPerDay.
Proof.
  unfold near. intros H. unfold elapsedDays. cbv zeta.
  apply floor_fl_div; [| done].
  assert (Hd : (fl (inject_Z date - inject_Z start) == inject_Z (date - start))%Q).
  { apply fl_Z; [| done].
    unfold Zminus. rewrite inject_Z_plus, inject_Z_opp. reflexivity. }
  by rewrite Hd.
Qed.

(** Beyond that distance they need not: between the last and nearly the
    first instant a [Date] can hold lie 199,999,999 whole days, and lines
    248-249 compute 200,000,000. *)
Example elapsedDays_far_apart :
  elapsedDays 8640000000000000 (-8639999999999999) = 200000000 ∧
  (8640000000000000 - -8639999999999999) / msPerDay = 199999999.
Proof. split; by vm_compute. Qed.

Lemma near_same date : near date date.
Proof. unfold near. rewrite Z.sub_diag. reflexivity. Qed.

Lemma elapsedDays_same (date : Date) : elapsedDays date date = 0.
Proof.
  rewrite elapsedDays_exact by apply near_same. by rewrite Z.sub_diag.
Qed.

Lemma elapsedDays_shift (date start k : Z) :
  near date start → near (date + k * msPerDay) start →
  elapsedDays (date + k * msPerDay) start = elapsedDays date start + k.
Proof.
  intros H1 H2. rewrite !elapsedDays_exact by done.
  replace (date + k * msPerDay - start) with (date - start + k * msPerDay) by lia.
  now rewrite Z.div_add.
Qed.

Lemma calculateDayNumber_stored date L w start :
  startDates (storage w) !! currentPlanType (self w) = Some start →
  calculateDayNumber date L w = (Returned (cycleDay (elapsedDays date start) L), w).
Proof. intros H. unfold calculateDayNumber. run. now rewrite H. Qed.

Lemma calculateDayNumber_fresh date L w :
  startDates (storage w) !! currentPlanType (self w) = None →
  calculateDayNumber date L w = (Returned 1, adopted date w).
Proof. intros H. unfold calculateDayNumber, adopted. run. now rewrite H. Qed.

Lemma adopted_start date w :
  startDates (storage (adopted date w)) !! currentPlanType (self (adopted date w))
  = Some date.
Proof. unfold adopted. run. apply lookup_insert_eq. Qed.

Lemma calculateDayNumber_result date L w :
  result (calculateDayNumber date L) w = Returned (dayNumberAt date L w).
Proof.
  unfold dayNumberAt.
  destruct (startDates (storage w) !! currentPlanType (self w)) eqn:E.
  - unfold result. now rewrite (calculateDayNumber_stored _ _ _ _ E).
  - unfold result. now rewrite (calculateDayNumber_fresh _ _ _ E).
Qed.

Lemma dayNumberAt_range date L w : 0 < L → 1 ≤ dayNumberAt date L w ≤ L.
Proof.
  intros HL. unfold dayNumberAt.
  destruct (_ !! _); [by apply cycleDay_range | lia].
Qed.

(** A second call in the world the first one leaves computes the same day
    (this is what [getFallbackReading] relies on). *)
Lemma calculateDayNumber_again date L w :
  0 < L →
  calculateDayNumber date L (after (calculateDayNumber date L) w)
  = (Returned (dayNumberAt date L w), after (calculateDayNumber date L) w).
Proof.
  intros HL. unfold dayNumberAt, after.
  destruct (startDates (storage w) !! currentPlanType (self w)) eqn:E.
  - rewrite (calculateDayNumber_stored _ _ _ _ E). simpl.
    now rewrite (calculateDayNumber_stored _ _ _ _ E).
  - rewrite (calculateDayNumber_fresh _ _ _ E). simpl.
    rewrite (calculateDayNumber_stored _ _ _ _ (adopted_start date w)).
    rewrite elapsedDays_same. unfold cycleDay.
    rewrite Z.rem_0_l by lia. rewrite Z.add_0_l, Z.rem_same by lia. done.
Qed.

(** C1: for a cycle length [L > 0] the day number lies in [1, L] for every
    integer number of elapsed days, so does the result of
    [calculateDayNumber] in every world, and the result is 1 when today is
    the stored start date. *)
Theorem day_number_in_cycle (L : Z) (HL : 0 < L) :
  (∀ diffDays, 1 ≤ cycleDay diffDays L ≤ L) ∧
  (∀ date w, ∃ n,
      result (calculateDayNumber date L) w = Returned n ∧ 1 ≤ n ≤ L) ∧
  (∀ date w,
      startDates (storage w) !! currentPlanType (self w) = Some date →
      result (calculateDayNumber date L) w = Returned 1).
Proof.
  split; [| split].
  - intros d. by apply cycleDay_range.
  - intros date w. exists (dayNumberAt date L w).
    split; [apply calculateDayNumber_result | by apply dayNumberAt_range].
  - intros date w H. unfold result.
    rewrite (calculateDayNumber_stored _ _ _ _ H). simpl.
    rewrite elapsedDays_same. unfold cycleDay.
    rewrite Z.rem_0_l by lia. rewrite Z.add_0_l, Z.rem_same by lia. done.
Qed.

Lemma day_number_in_cycle_witness :
  1 ≤ cycleDay (-1) 90 ≤ 90 ∧
  result (calculateDayNumber (utcMidnight 2024 1 1) 90) world2024 = Returned 1.
Proof.
  pose proof (day_number_in_cycle 90 ltac:(lia)) as (Hrange & _ & Hstart).
  split.
  - apply Hrange.
  - apply Hstart. reflexivity.
Defined.

(** C2, as stated, fails: 2024-04-01 is 91 days after 2024-01-01, and with a
    cycle of 90 the code returns day 2 on that date, not day 1. *)
Lemma april_first_is_not_day_one :
  utcMidnight 2024 4 1 = utcMidnight 2024 1 1 + 91 * msPerDay ∧
  startDates (storage world2024) !! currentPlanType (self world2024)
    = Some (utcMidnight 2024 1 1) ∧
  result (calculateDayNumber (utcMidnight 2024 4 1) 90) world2024 = Returned 2 ∧
  result (calculateDayNumber (utcMidnight 2024 4 1) 90) world2024 ≠ Returned 1.
Proof. repeat split; try reflexivity. vm_compute. discriminate. Qed.

(** C2, amended: with cycle length 90 and stored start date 2024-01-01,
    [calculateDayNumber] returns 1 for 2024-01-01, 90 for 2023-12-31, 2 for
    2024-04-01 (91 days later), and wraps to 1 on 2024-03-31 (90 days
    later). *)
Theorem day_number_examples_2024 (w : World)
    (Hstart : startDates (storage w) !! currentPlanType (self w)
              = Some (utcMidnight 2024 1 1)) :
  result (calculateDayNumber (utcMidnight 2024 1 1) 90) w = Returned 1 ∧
  result (calculateDayNumber (utcMidnight 2023 12 31) 90) w = Returned 90 ∧
  result (calculateDayNumber (utcMidnight 2024 4 1) 90) w = Returned 2 ∧
  result (calculateDayNumber (utcMidnight 2024 3 31) 90) w = Returned 1.
Proof.
  unfold result.
  rewrite !(calculateDayNumber_stored _ _ _ _ Hstart). simpl.
  repeat split; reflexivity.
Qed.

Lemma day_number_examples_2024_witness :
  result (calculateDayNumber (utcMidnight 2024 4 1) 90) world2024 = Returned 2.
Proof.
  refine (proj1 (proj2 (proj2 (day_number_examples_2024 world2024 _)))).
  reflexivity.
Defined.






(** C9, as stated, fails for instants far apart.  The start date
    -8640000000000000, today 367191532799999 and today 90 days later are all
    time values a [Date] can hold; today is more than 2^53 milliseconds after
    the start only once shifted, its difference is then rounded to an even
    number, and the day number moves from 22 to 23. *)
Lemma far_apart_shift_changes_day :
  validDate (-8640000000000000) ∧ validDate 367191532799999 ∧
  validDate (367191532799999 + 90 * msPerDay) ∧
  startDates (storage worldEarliestStart) !! currentPlanType (self worldEarliestStart)
    = Some (-8640000000000000) ∧
  result (calculateDayNumber 367191532799999 90) worldEarliestStart = Returned 22 ∧
  result (calculateDayNumber (367191532799999 + 90 * msPerDay) 90)
         worldEarliestStart = Returned 23 ∧
  result (calculateDayNumber (367191532799999 + 90 * msPerDay) 90)
         worldEarliestStart
  ≠ result (calculateDayNumber 367191532799999 90) worldEarliestStart.
Proof.
  split; [by vm_compute |]. split; [by vm_compute |]. split; [by vm_compute |].
  split; [reflexivity |].
  split; [by vm_compute |]. split; [by vm_compute |].
  vm_compute. discriminate.
Qed.

(** C9, amended: the day number is cyclical for instants less than 2^53
    milliseconds apart.  For every world, cycle length [L > 0] and today
    such that today and today shifted by [L] days are both within that
    distance of the start date in force (the stored one, or today when none
    is stored), moving today forward by [L] days gives the same day number,
    both from the same world and after the first call has run. *)
Theorem day_number_cyclical (date : Date) (L : Z) (w : World) (HL : 0 < L)
    (Hnear : let start := default date (startDates (storage w)
                                          !! currentPlanType (self w)) in
             near date start ∧ near (date + L * msPerDay) start) :
  result (calculateDayNumber (date + L * msPerDay) L) w
  = result (calculateDayNumber date L) w ∧
  result (calculateDayNumber (date + L * msPerDay) L)
         (after (calculateDayNumber date L) w)
  = result (calculateDayNumber date L) w.
Proof.
  cbv zeta in Hnear.
  destruct (startDates (storage w) !! currentPlanType (self w)) eqn:E;
    simpl in Hnear; destruct Hnear as [Hn1 Hn2].
  - unfold result, after.
    rewrite !(calculateDayNumber_stored _ _ _ _ E). simpl.
    rewrite ?(calculateDayNumber_stored _ _ _ _ E). simpl.
    rewrite elapsedDays_shift, cycleDay_shift by done. done.
  - unfold result, after.
    rewrite !(calculateDayNumber_fresh _ _ _ E). simpl.
    rewrite (calculateDayNumber_stored _ _ _ _ (adopted_start date w)). simpl.
    rewrite elapsedDays_shift, cycleDay_shift, elapsedDays_same by done.
    split; [done |]. unfold cycleDay.
    rewrite Z.rem_0_l by lia. rewrite Z.add_0_l, Z.rem_same by lia. done.
Qed.

Lemma day_number_cyclical_witness :
  result (calculateDayNumber (utcMidnight 2023 12 31 + 90 * msPerDay) 90) world2024
  = Returned 90.
Proof.
  rewrite (proj1 (day_number_cyclical (utcMidnight 2023 12 31) 90 world2024
                    ltac:(lia) ltac:(by vm_compute))).
  reflexivity.
Defined.

(** ** The reading getters: results and effects *)

Lemma calculateDayNumber_run date L w :
  calculateDayNumber date L w = (Returned (dayNumberAt date L w), withStart date w).
Proof.
  unfold dayNumberAt, withStart.
  destruct (startDates (storage w) !! currentPlanType (self w)) eqn:E.
  - by apply calculateDayNumber_stored.
  - by apply calculateDayNumber_fresh.
Qed.

Lemma withStart_self date w : self (withStart date w) = self w.
Proof. unfold withStart, adopted. destruct (_ !! _); done. Qed.

Lemma withStart_idem date w : withStart date (withStart date w) = withStart date w.
Proof.
  unfold withStart at 1. rewrite withStart_self.
  destruct (startDates (storage (withStart date w)) !! currentPlanType (self w))
    eqn:E; [done |].
  exfalso. revert E. unfold withStart.
  destruct (startDates (storage w) !! currentPlanType (self w)) eqn:E'.
  - congruence.
  - pose proof (adopted_start date w) as H. unfold adopted in *. simpl in *.
    congruence.
Qed.

Lemma dayNumberAt_withStart date L w :
  0 < L → dayNumberAt date L (withStart date w) = dayNumberAt date L w.
Proof.
  intros HL.
  pose proof (calculateDayNumber_again date L w HL) as H.
  unfold after in H. rewrite !calculateDayNumber_run in H. simpl in H.
  congruence.
Qed.

Lemma getFallbackReading_run date L testament w :
  getFallbackReading date L testament w
  = (Returned (if String.eqb testament "OT"
               then otFallback (dayNumberAt date L w)
               else ntFallback (dayNumberAt date L w)),
     withStart date w).
Proof.
  unfold getFallbackReading. run. rewrite calculateDayNumber_run.
  by destruct (String.eqb testament "OT").
Qed.

(** What the two flat getters return, given the table and the day number. *)
Lemma getNT90Reading_run date w :
  getNT90Reading date w
  = (Returned
       (match Array_find (λ r, Entry.day r = dayNumberAt date 90 w)
                         (nt90Plan (self w)) with
        | Some (_, reading) => nt90Assignment reading
        | None => ntFallback (dayNumberAt date 90 w)
        end),
     withStart date w).
Proof.
  unfold getNT90Reading. run. rewrite calculateDayNumber_run.
  rewrite withStart_self.
  destruct (nt90Plan (self w)) as [|r plan] eqn:E.
  - simpl. rewrite getFallbackReading_run, withStart_idem, dayNumberAt_withStart by lia.
    done.
  - rewrite bool_decide_eq_false_2 by done.
    destruct (Array_find _ _) as [[? ?]|]; [done |].
    rewrite getFallbackReading_run, withStart_idem, dayNumberAt_withStart by lia.
    done.
Qed.

Lemma getOT365Reading_run date w :
  getOT365Reading date w
  = (Returned
       (match Array_find (λ r, Entry.day r = dayNumberAt date 365 w)
                         (ot365Plan (self w)) with
        | Some (_, reading) => ot365Assignment reading
        | None => otFallback (dayNumberAt date 365 w)
        end),
     withStart date w).
Proof.
  unfold getOT365Reading. run. rewrite calculateDayNumber_run.
  rewrite withStart_self.
  destruct (ot365Plan (self w)) as [|r plan] eqn:E.
  - simpl. rewrite getFallbackReading_run, withStart_idem, dayNumberAt_withStart by lia.
    done.
  - rewrite bool_decide_eq_false_2 by done.
    destruct (Array_find _ _) as [[? ?]|]; [done |].
    rewrite getFallbackReading_run, withStart_idem, dayNumberAt_withStart by lia.
    done.
Qed.

Lemma getEthiopianReading_run date w :
  getEthiopianReading date w
  = (Returned
       (match forMonths (ethiopianPlan (self w)) (dayNumberAt date 365 w) 0
                        (ethiopianPlan (self w)) with
        | Some (_, _, reading) =>
            ethiopianAssignment (dayNumberAt date 365 w) reading
        | None => otFallback (dayNumberAt date 365 w)
        end),
     withStart date w).
Proof.
  unfold getEthiopianReading. run. rewrite calculateDayNumber_run.
  rewrite withStart_self.
  destruct (ethiopianPlan (self w)) as [|m plan] eqn:E.
  - simpl.
    rewrite getFallbackReading_run, withStart_idem, dayNumberAt_withStart by lia.
    done.
  - rewrite bool_decide_eq_false_2 by done.
    destruct (forMonths _ _ _ _) as [[[? ?] ?]|]; [done |].
    rewrite getFallbackReading_run, withStart_idem, dayNumberAt_withStart by lia.
    done.
Qed.

(** Lines 121-130 as a function of the plan type settled on. *)
Lemma getReadingForDate_dispatch date planType w :
  getReadingForDate date planType w
  = (let p := chosenPlan planType w in
     if String.eqb p "nt90" then getNT90Reading date
     else if String.eqb p "ot365" then getOT365Reading date
     else if String.eqb p "ethiopian" then getEthiopianReading date
     else getNT90Reading date) (withPlan (chosenPlan planType w) w).
Proof.
  unfold getReadingForDate, chosenPlan, withPlan.
  destruct planType as [[|c s]|]; run; done.
Qed.

Lemma getReadingForDate_effect date planType w :
  after (getReadingForDate date planType) w
  = withStart date (withPlan (chosenPlan planType w) w).
Proof.
  unfold after. rewrite getReadingForDate_dispatch. simpl.
  repeat case_match;
    by rewrite ?getNT90Reading_run, ?getOT365Reading_run, ?getEthiopianReading_run.
Qed.

Lemma getReadingForDate_returns date planType w :
  ∃ a, result (getReadingForDate date planType) w = Returned a.
Proof.
  unfold result. rewrite getReadingForDate_dispatch. simpl.
  repeat case_match;
    rewrite ?getNT90Reading_run, ?getOT365Reading_run, ?getEthiopianReading_run;
    eauto.
Qed.

Lemma eqb_known p :
  ¬ knownPlanType p →
  String.eqb p "nt90" = false ∧ String.eqb p "ot365" = false
  ∧ String.eqb p "ethiopian" = false.
Proof.
  unfold knownPlanType. intros H.
  repeat split; apply String.eqb_neq; intros ->; tauto.
Qed.

(** C4, as stated, fails: a plan type outside the set is accepted.  For the
    unknown type [psalms], [getReadingForDate] returns the NT90 fallback and
    [getPlanInfo] the [nt90] record; at line 57 [loadPlanFromFile] is the
    only operation that throws on it. *)
Lemma unknown_plan_type_is_not_rejected :
  ¬ knownPlanType "psalms" ∧
  result (getReadingForDate (utcMidnight 2024 1 1) (Some "psalms")) world2024
    = Returned (ntFallback 1) ∧
  getPlanInfo "psalms" = Returned (Info nt90Info) ∧
  ¬ throws (result (getReadingForDate (utcMidnight 2024 1 1) (Some "psalms"))
                   world2024) ∧
  ¬ throws (getPlanInfo "psalms") ∧
  throws (result (loadPlanFromFile "psalms" None) world2024).
Proof.
  split; [unfold knownPlanType; intros [H|[H|H]]; discriminate |].
  split; [reflexivity |]. split; [reflexivity |].
  split; [intros [msg H]; vm_compute in H; discriminate |].
  split; [intros [msg H]; vm_compute in H; discriminate |].
  eexists. reflexivity.
Qed.

(** C4, amended: no plan type makes [getReadingForDate] or [getPlanInfo]
    throw.  When the plan type settled on is outside the set,
    [getReadingForDate] keeps it as the current plan type and answers as
    [getNT90Reading] does; for an argument outside the set [getPlanInfo]
    gives the [nt90] record, or the member of [Object.prototype] the
    argument names. *)
Theorem unknown_plan_type_defaults (date : Date) (planType : option string)
    (key : string) (w : World) :
  (∃ a, result (getReadingForDate date planType) w = Returned a) ∧
  (¬ knownPlanType (chosenPlan planType w) →
     getReadingForDate date planType w
     = getNT90Reading date (withPlan (chosenPlan planType w) w)) ∧
  (¬ knownPlanType key →
     getPlanInfo key
     = Returned (if inherited key then PrototypeMember key else Info nt90Info)).
Proof.
  split; [apply getReadingForDate_returns |]. split.
  - intros H. rewrite getReadingForDate_dispatch. simpl.
    destruct (eqb_known _ H) as (-> & -> & ->). done.
  - intros H. unfold getPlanInfo.
    destruct (eqb_known _ H) as (-> & -> & ->). done.
Qed.

Lemma unknown_plan_type_defaults_witness :
  getReadingForDate (utcMidnight 2024 1 1) (Some "psalms") world2024
  = getNT90Reading (utcMidnight 2024 1 1) (withPlan "psalms" world2024) ∧
  getPlanInfo "valueOf" = Returned (PrototypeMember "valueOf").
Proof.
  pose proof (unknown_plan_type_defaults (utcMidnight 2024 1 1)
                (Some "psalms") "valueOf" world2024) as (_ & Hread & Hinfo).
  split.
  - apply Hread. unfold knownPlanType. simpl. intros [H|[H|H]]; discriminate.
  - apply Hinfo. unfold knownPlanType. intros [H|[H|H]]; discriminate.
Defined.

(** C5, as stated, fails: the call assigns the current-plan-type field
    (line 116). *)
Lemma reading_call_changes_current_plan_type :
  currentPlanType (self world2024) = "nt90" ∧
  currentPlanType
    (self (after (getReadingForDate (utcMidnight 2024 1 1) (Some "ot365"))
                 world2024)) = "ot365" ∧
  currentPlanType
    (self (after (getReadingForDate (utcMidnight 2024 1 1) (Some "ot365"))
                 world2024)) ≠ currentPlanType (self world2024).
Proof. repeat split; try reflexivity. vm_compute. discriminate. Qed.

(** C5, amended: [getReadingForDate] changes the current-plan-type field,
    which becomes the plan type settled on, and nothing else of the object:
    the three plan tables are as before.  In the store only the start dates
    can change: the date is adopted for that plan type when none is stored
    for it. *)
Theorem reading_call_frame (date : Date) (planType : option string) (w : World) :
  let p := chosenPlan planType w in
  let w' := after (getReadingForDate date planType) w in
  nt90Plan (self w') = nt90Plan (self w) ∧
  ot365Plan (self w') = ot365Plan (self w) ∧
  ethiopianPlan (self w') = ethiopianPlan (self w) ∧
  currentPlanType (self w') = p ∧
  currentPlan (storage w') = currentPlan (storage w) ∧
  completedReadings (storage w') = completedReadings (storage w) ∧
  startDates (storage w')
  = match startDates (storage w) !! p with
    | Some _ => startDates (storage w)
    | None => <[p := date]> (startDates (storage w))
    end.
Proof.
  intros p w'. subst w'. rewrite getReadingForDate_effect. fold p.
  unfold withStart, adopted, withPlan. run.
  destruct (startDates (storage w) !! p); simpl; repeat split; reflexivity.
Qed.

(** C8: a reading requested for a plan whose table is empty is returned, not
    thrown, and is the fixed fallback of that testament, its day being the
    one [calculateDayNumber] computes for the plan's cycle length. *)
Theorem fallback_when_not_ingested (date : Date) (planType : option string)
    (w : World) :
  let p := chosenPlan planType w in
  (p = "nt90" → nt90Plan (self w) = [] →
   ∃ n, result (calculateDayNumber date 90) (withPlan p w) = Returned n ∧
        result (getReadingForDate date planType) w
        = Returned {| Assignment.day := n;
                      Assignment.title := "NT90 Day " +:+ tplNum n;
                      Assignment.passages := ["Matthew 1-4"];
                      Assignment.theme := Some "Birth & Early Ministry";
                      Assignment.month := None;
                      Assignment.focus := None;
                      Assignment.feast := None;
                      Assignment.chapters := 4 |}) ∧
  ((p = "ot365" ∧ ot365Plan (self w) = []) ∨
   (p = "ethiopian" ∧ ethiopianPlan (self w) = []) →
   ∃ n, result (calculateDayNumber date 365) (withPlan p w) = Returned n ∧
        result (getReadingForDate date planType) w
        = Returned {| Assignment.day := n;
                      Assignment.title := "OT365 Day " +:+ tplNum n;
                      Assignment.passages := ["Genesis 1-3"];
                      Assignment.theme := Some "Creation & Fall";
                      Assignment.month := None;
                      Assignment.focus := None;
                      Assignment.feast := None;
                      Assignment.chapters := 3 |}).
Proof.
  intros p. split.
  - intros Hp Hempty. exists (dayNumberAt date 90 (withPlan p w)).
    split; [apply calculateDayNumber_result |].
    unfold result. rewrite getReadingForDate_dispatch. fold p. rewrite Hp.
    simpl. rewrite getNT90Reading_run. simpl. rewrite Hempty. done.
  - intros [[Hp Hempty]|[Hp Hempty]];
      exists (dayNumberAt date 365 (withPlan p w));
      (split; [apply calculateDayNumber_result |]);
      unfold result; rewrite getReadingForDate_dispatch; fold p; rewrite Hp;
      simpl.
    + rewrite getOT365Reading_run. simpl. rewrite Hempty. done.
    + rewrite getEthiopianReading_run. simpl. rewrite Hempty. done.
Qed.

Lemma fallback_when_not_ingested_witness :
  result (getReadingForDate (utcMidnight 2023 12 31) None) world2024
  = Returned (ntFallback 90) ∧
  result (getReadingForDate (utcMidnight 2023 12 31) (Some "ethiopian")) world2024
  = Returned (otFallback 1).
Proof.
  split.
  - destruct (proj1 (fallback_when_not_ingested (utcMidnight 2023 12 31) None
                       world2024) eq_refl eq_refl) as (n & Hn & ->).
    vm_compute in Hn. by injection Hn as <-.
  - destruct (proj2 (fallback_when_not_ingested (utcMidnight 2023 12 31)
                       (Some "ethiopian") world2024)
                (or_intror (conj eq_refl eq_refl))) as (n & Hn & ->).
    vm_compute in Hn. by injection Hn as <-.
Defined.

(** ** Sorting and flattening *)

Section sorting.
Context {A : Type} (cmp : A → A → Z).

Lemma sortInsert_perm x l : sortInsert cmp x l ≡ₚ x :: l.
Proof.
  induction l as [|y l IH]; simpl; [done |].
  destruct (cmp x y <=? 0); [done |].
  rewrite IH. apply Permutation_swap.
Qed.

Lemma Array_sort_perm l : Array_sort cmp l ≡ₚ l.
Proof.
  induction l as [|x l IH]; simpl; [done |].
  rewrite sortInsert_perm. by rewrite IH.
Qed.

(** Stability: elements that the comparator cannot tell apart keep their
    order. *)
Lemma sortInsert_filter (P : A → Prop) `{∀ x, Decision (P x)} x l :
  (∀ a b, P a → P b → cmp a b = 0) →
  filter P (sortInsert cmp x l) = filter P (x :: l).
Proof.
  intros Heq. induction l as [|y l IH]; simpl; [done |].
  destruct (Z.leb_spec (cmp x y) 0) as [Hle|Hgt]; [done |].
  rewrite !filter_cons. rewrite filter_cons in IH.
  destruct (decide (P y)) as [Hy|Hy]; destruct (decide (P x)) as [Hx|Hx];
    rewrite IH; try done.
  specialize (Heq x y Hx Hy). lia.
Qed.

Lemma Array_sort_stable (P : A → Prop) `{∀ x, Decision (P x)} l :
  (∀ a b, P a → P b → cmp a b = 0) →
  filter P (Array_sort cmp l) = filter P l.
Proof.
  intros Heq. induction l as [|x l IH]; simpl; [done |].
  rewrite sortInsert_filter by done.
  rewrite !filter_cons. by rewrite IH.
Qed.
End sorting.

Lemma sortInsert_byDay_sorted x l :
  StronglySorted dayLe l → StronglySorted dayLe (sortInsert byDay x l).
Proof.
  induction 1 as [|y l Hl IH Hy]; simpl.
  - repeat constructor.
  - unfold byDay at 1.
    destruct (Z.leb_spec (Entry.day x - Entry.day y) 0) as [Hle|Hgt].
    + constructor; [by constructor |].
      constructor; [unfold dayLe; lia |].
      eapply Forall_impl; [exact Hy |]. unfold dayLe. intros z Hz. lia.
    + constructor; [done |].
      rewrite sortInsert_perm. constructor; [unfold dayLe; lia | done].
Qed.

Lemma Array_sort_byDay_sorted l : StronglySorted dayLe (Array_sort byDay l).
Proof.
  induction l as [|x l IH]; simpl; [constructor |].
  by apply sortInsert_byDay_sorted.
Qed.

Lemma pushed_length (plans : list MonthPlan.t) :
  length (plans ≫= λ monthPlan, flatRecord monthPlan <$> monthDays monthPlan)
  = sum_list_with (λ monthPlan, length (monthDays monthPlan)) plans.
Proof.
  induction plans as [|m plans IH]; [done |].
  rewrite bind_cons, length_app, length_fmap, IH. done.
Qed.

(** The records pushed, with every field written out. *)
Lemma pushedRecords_explicit (data : RawDocument) :
  pushedRecords data
  = default [] (monthlyPlans data) ≫= λ monthPlan,
      (λ day,
         {| Entry.day := Entry.day day;
            Entry.reading := Entry.reading day;
            Entry.theme := Entry.theme day;
            Entry.month := MonthPlan.month monthPlan;
            Entry.focus := MonthPlan.focus monthPlan;
            Entry.feast := None;
            Entry.chapters :=
              Some (match Entry.chapters day with
                    | Some c => if c =? 0 then 3 else c
                    | None => 3
                    end) |})
      <$> default [] (MonthPlan.days monthPlan).
Proof. unfold pushedRecords. by destruct (monthlyPlans data). Qed.

(** C7: [flattenOT365Plan] gives one record per day entry of the document's
    month groups: as many records as the months have days, the table being a
    rearrangement of the records made of each day entry's own [day],
    [reading] and [theme], its month's [month] and [focus], and its
    [chapters], which is 3 when the entry has none (or has 0) and the entry's
    own count otherwise; and the table is ordered by the [day] fields,
    entries with equal days staying in document order. *)
Theorem flatten_ot365_table (data : RawDocument) :
  let plans := default [] (monthlyPlans data) in
  let table := flattenOT365Plan data in
  let recordOf (monthPlan : MonthPlan.t) (day : Entry.t) : Entry.t :=
    {| Entry.day := Entry.day day;
       Entry.reading := Entry.reading day;
       Entry.theme := Entry.theme day;
       Entry.month := MonthPlan.month monthPlan;
       Entry.focus := MonthPlan.focus monthPlan;
       Entry.feast := None;
       Entry.chapters :=
         Some (match Entry.chapters day with
               | Some c => if c =? 0 then 3 else c
               | None => 3
               end) |} in
  length table
  = sum_list_with (λ monthPlan, length (default [] (MonthPlan.days monthPlan)))
                  plans ∧
  table ≡ₚ (plans ≫= λ monthPlan,
              recordOf monthPlan <$> default [] (MonthPlan.days monthPlan)) ∧
  (∀ monthPlan day,
     monthPlan ∈ plans → day ∈ default [] (MonthPlan.days monthPlan) →
     ∃ record, record ∈ table ∧
       Entry.day record = Entry.day day ∧
       Entry.reading record = Entry.reading day ∧
       Entry.theme record = Entry.theme day ∧
       Entry.month record = MonthPlan.month monthPlan ∧
       Entry.focus record = MonthPlan.focus monthPlan ∧
       (Entry.chapters day = None → Entry.chapters record = Some 3) ∧
       (Entry.chapters day = Some 0 → Entry.chapters record = Some 3) ∧
       (∀ c, Entry.chapters day = Some c → c ≠ 0 →
             Entry.chapters record = Some c)) ∧
  StronglySorted (λ a b, Entry.day a ≤ Entry.day b) table ∧
  (∀ d, filter (λ r, Entry.day r = d) table
        = filter (λ r, Entry.day r = d)
            (plans ≫= λ monthPlan,
               recordOf monthPlan <$> default [] (MonthPlan.days monthPlan))).
Proof.
  intros plans table recordOf. subst recordOf. cbv beta.
  pose proof (pushedRecords_explicit data) as Hpushed. fold plans in Hpushed.
  assert (Hperm : table ≡ₚ pushedRecords data) by apply Array_sort_perm.
  split; [| split; [| split; [| split]]].
  - rewrite Hperm. unfold pushedRecords. fold plans.
    destruct (monthlyPlans data); [apply pushed_length | done].
  - by rewrite Hperm, Hpushed.
  - intros m day Hm Hday. eexists. split.
    + rewrite Hperm, Hpushed. apply list_elem_of_bind. exists m.
      split; [apply list_elem_of_fmap_2; exact Hday | done].
    + simpl. repeat split.
      * by intros ->.
      * by intros ->.
      * intros c -> Hc. by rewrite (proj2 (Z.eqb_neq c 0) Hc).
  - apply Array_sort_byDay_sorted.
  - intros d. subst table. unfold flattenOT365Plan. rewrite <- Hpushed.
    apply Array_sort_stable; unfold byDay; intros a b; lia.
Qed.

Lemma flatten_ot365_table_witness :
  map Entry.day (flattenOT365Plan sampleOT365) = [1; 2; 3] ∧
  ∃ record, record ∈ flattenOT365Plan sampleOT365 ∧
            Entry.day record = 1 ∧ Entry.month record = Some "January" ∧
            Entry.chapters record = Some 5.
Proof.
  split; [reflexivity |].
  destruct (proj1 (proj2 (proj2 (flatten_ot365_table sampleOT365)))
              january (sampleDay 1 (Some 5)))
    as (record & Hin & Hday & _ & _ & Hmonth & _ & _ & _ & Hchapters).
  - apply list_elem_of_here.
  - apply list_elem_of_further, list_elem_of_here.
  - exists record. repeat split; [done | done | done |].
    by apply (Hchapters 5).
Defined.

(** ** The Ethiopian lookup *)

Lemma sumCounts_app l1 l2 : sumCounts (l1 ++ l2) = sumCounts l1 + sumCounts l2.
Proof. unfold sumCounts. induction l1 as [|m l1 IH]; simpl; lia. Qed.

(** The loop of lines 196-199 adds up the counts of the earlier months. *)
Lemma daysSoFar_sum plan i : daysSoFar plan i = sumCounts (take i plan).
Proof.
  unfold daysSoFar. induction i as [|i IH]; [by rewrite take_0 |].
  rewrite seq_S, foldl_app. simpl. rewrite IH.
  destruct (plan !! i) as [m|] eqn:E; simpl.
  - rewrite (take_S_r _ _ _ E), sumCounts_app. simpl. lia.
  - apply lookup_ge_None in E.
    rewrite !take_ge by lia. lia.
Qed.

(** What the loop finds: the first month, and in it the first reading,
    whose derived day number is the one looked for. *)
Lemma forMonths_spec plan n rest : ∀ i mi j e,
  forMonths plan n i rest = Some (mi, j, e) ↔
  ∃ k month rs r,
    mi = (i + k)%nat ∧ rest !! k = Some month ∧
    EthMonth.readings month = Some rs ∧ rs !! j = Some r ∧
    readingDayNumber plan mi r = n ∧ e = mergedReading month r ∧
    (∀ j' r', rs !! j' = Some r' → (j' < j)%nat →
              readingDayNumber plan mi r' ≠ n) ∧
    (∀ k' month' r', (k' < k)%nat → rest !! k' = Some month' →
              r' ∈ monthReadings month' →
              readingDayNumber plan (i + k') r' ≠ n).
Proof.
  induction rest as [|m rest IH]; intros i mi j e; simpl.
  { split; [discriminate |]. intros (k & ? & ? & ? & _ & Hk & _). done. }
  destruct (EthMonth.readings m) as [rs|] eqn:Hrs.
  - destruct (Array_find _ rs) as [[j0 r0]|] eqn:Hf; unfold Array_find in Hf.
    + apply list_find_Some in Hf as (Hj0 & Hr0 & Hfirst0). split.
      * intros [= <- <- <-]. exists 0%nat, m, rs, r0.
        rewrite Nat.add_0_r. repeat split; try done.
        intros k' ? ? ?. lia.
      * intros (k & month & rs' & r & -> & Hk & Hrs' & Hj & Hr & -> & Hfirst & Hprev).
        destruct k as [|k].
        -- simpl in Hk. injection Hk as <-. rewrite Nat.add_0_r in *.
           assert (rs' = rs) as -> by congruence.
           assert (j = j0) as ->.
           { destruct (Nat.lt_trichotomy j j0) as [Hlt|[->|Hlt]]; [| done |].
             - by destruct (Hfirst0 j r Hj Hlt).
             - by destruct (Hfirst j0 r0 Hj0 Hlt). }
           by assert (r = r0) as -> by congruence.
        -- exfalso. apply (Hprev 0%nat m r0); [lia | done | |].
           ++ unfold monthReadings. rewrite Hrs. simpl.
              by apply (list_elem_of_lookup_2 _ j0).
           ++ by rewrite Nat.add_0_r.
    + apply list_find_None in Hf. rewrite Forall_forall in Hf.
      rewrite IH. split.
      * intros (k & month & rs' & r & -> & Hk & Hrs' & Hj & Hr & -> & Hfirst & Hprev).
        exists (S k), month, rs', r.
        replace (i + S k)%nat with (S i + k)%nat by lia.
        repeat split; try done.
        intros [|k'] month' r' Hlt Hk' Hin.
        -- simpl in Hk'. injection Hk' as <-. rewrite Nat.add_0_r.
           unfold monthReadings in Hin. rewrite Hrs in Hin. by apply Hf.
        -- replace (i + S k')%nat with (S i + k')%nat by lia.
           apply (Hprev k' month'); [lia | done | done].
      * intros (k & month & rs' & r & -> & Hk & Hrs' & Hj & Hr & -> & Hfirst & Hprev).
        destruct k as [|k].
        -- exfalso. simpl in Hk. injection Hk as <-. rewrite Nat.add_0_r in *.
           assert (rs' = rs) as -> by congruence.
           apply (Hf r); [by apply (list_elem_of_lookup_2 _ j) | done].
        -- exists k, month, rs', r.
           replace (S i + k)%nat with (i + S k)%nat by lia.
           repeat split; try done.
           intros k' month' r' Hlt Hk' Hin.
           replace (S i + k')%nat with (i + S k')%nat by lia.
           apply (Hprev (S k') month'); [lia | done | done].
  - rewrite IH. split.
    + intros (k & month & rs' & r & -> & Hk & Hrs' & Hj & Hr & -> & Hfirst & Hprev).
      exists (S k), month, rs', r.
      replace (i + S k)%nat with (S i + k)%nat by lia.
      repeat split; try done.
      intros [|k'] month' r' Hlt Hk' Hin.
      * simpl in Hk'. injection Hk' as <-.
        unfold monthReadings in Hin. rewrite Hrs in Hin. by inversion Hin.
      * replace (i + S k')%nat with (S i + k')%nat by lia.
        apply (Hprev k' month'); [lia | done | done].
    + intros (k & month & rs' & r & -> & Hk & Hrs' & Hj & Hr & -> & Hfirst & Hprev).
      destruct k as [|k].
      * simpl in Hk. injection Hk as <-. congruence.
      * exists k, month, rs', r.
        replace (S i + k)%nat with (i + S k)%nat by lia.
        repeat split; try done.
        intros k' month' r' Hlt Hk' Hin.
        replace (S i + k')%nat with (i + S k')%nat by lia.
        apply (Hprev (S k') month'); [lia | done | done].
Qed.

Lemma readingDayNumber_sum plan m r :
  readingDayNumber plan m r = sumCounts (take m plan) + Entry.day r.
Proof. unfold readingDayNumber. by rewrite daysSoFar_sum. Qed.

(** The lookup over the whole plan. *)
Lemma lookup_position plan n m j month rs r :
  plan !! m = Some month → EthMonth.readings month = Some rs → rs !! j = Some r →
  forMonths plan n 0 plan = Some (m, j, mergedReading month r)
  ↔ sumCounts (take m plan) + Entry.day r = n ∧ firstWith plan n m j.
Proof.
  intros Hm Hrs Hj. rewrite forMonths_spec. split.
  - intros (k & month' & rs' & r' & -> & Hk & Hrs' & Hj' & Hr & _ & Hfirst & Hprev).
    simpl in *. rewrite Hm in Hk. injection Hk as <-.
    rewrite Hrs in Hrs'. injection Hrs' as <-.
    rewrite Hj in Hj'. injection Hj' as <-.
    rewrite readingDayNumber_sum in Hr. split; [done |]. split.
    + intros month' j' r' Hm' Hj' Hlt. rewrite Hm in Hm'. injection Hm' as <-.
      unfold monthReadings in Hj'. rewrite Hrs in Hj'. simpl in Hj'.
      rewrite <- readingDayNumber_sum. by apply (Hfirst j').
    + intros m' month' r' Hlt Hm' Hin. rewrite <- readingDayNumber_sum.
      by apply (Hprev m' month').
  - intros (Hr & Hfirst & Hprev). exists m, month, rs, r. simpl.
    repeat split; try done.
    + by rewrite readingDayNumber_sum.
    + intros j' r' Hj' Hlt. rewrite readingDayNumber_sum.
      apply (Hfirst month j'); [done | | done].
      unfold monthReadings. by rewrite Hrs.
    + intros m' month' r' Hlt Hm' Hin. rewrite readingDayNumber_sum.
      by apply (Hprev m' month').
Qed.

Lemma sumCounts_nonneg l : 0 ≤ sumCounts l.
Proof.
  induction l as [|m l IH]; simpl; [done |].
  unfold readingCount. destruct (EthMonth.readings m); lia.
Qed.

Lemma readingCount_monthReadings m :
  readingCount m = Z.of_nat (length (monthReadings m)).
Proof. unfold readingCount, monthReadings. by destruct (EthMonth.readings m). Qed.

(** The offset of a month is non-zero exactly when an earlier month has a
    reading. *)
Lemma sumCounts_take_nonzero plan m :
  sumCounts (take m plan) ≠ 0
  ↔ ∃ m' month', (m' < m)%nat ∧ plan !! m' = Some month' ∧ monthReadings month' ≠ [].
Proof.
  revert m. induction plan as [|month plan IH]; intros m.
  { rewrite take_nil. simpl. split; [done |]. by intros (? & ? & _ & ? & _). }
  destruct m as [|m]; simpl.
  { split; [done |]. intros (? & ? & ? & _). lia. }
  pose proof (sumCounts_nonneg (take m plan)) as Hnn.
  rewrite readingCount_monthReadings. split.
  - intros Hne. destruct (monthReadings month) as [|r rs] eqn:E.
    + simpl in Hne. destruct (proj1 (IH m)) as (m' & month' & Hlt & Hm' & Hrs).
      { lia. }
      exists (S m'), month'. split; [lia | done].
    + exists 0%nat, month. simpl. split; [lia |]. by rewrite E.
  - intros ([|m'] & month' & Hlt & Hm' & Hrs); simpl in Hm'.
    + injection Hm' as <-. destruct (monthReadings month); [done |].
      simpl length. lia.
    + assert (sumCounts (take m plan) ≠ 0).
      { apply IH. exists m', month'. split; [lia | done]. }
      lia.
Qed.

(** C6, as stated, fails: with counts [2; 1; 2] the day number
    [c1 + c2 + 2 = 5] is reached on 2024-01-05, the third month has a reading
    with intra-month day 2, and yet the reading returned is the one the first
    month lists for its day 5, whose derived number is 5 as well. *)
Lemma earlier_reading_shadows_third_month :
  readingCount <$> sparsePlan = [2; 1; 2] ∧
  result (calculateDayNumber (utcMidnight 2024 1 5) 365) (worldEthiopian sparsePlan)
    = Returned (2 + 1 + 2) ∧
  sparsePlan !! 2%nat = Some (ethMonth "Hidar" [1; 2]) ∧
  monthReadings (ethMonth "Hidar" [1; 2]) !! 1%nat = Some (ethReading 2) ∧
  (∃ e, forMonths sparsePlan 5 0 sparsePlan = Some (0%nat, 1%nat, e)) ∧
  result (getEthiopianReading (utcMidnight 2024 1 5)) (worldEthiopian sparsePlan)
    = Returned (ethiopianAssignment 5
                  (mergedReading (ethMonth "Meskerem" [1; 5]) (ethReading 5))) ∧
  result (getEthiopianReading (utcMidnight 2024 1 5)) (worldEthiopian sparsePlan)
    ≠ Returned (ethiopianAssignment 5
                  (mergedReading (ethMonth "Hidar" [1; 2]) (ethReading 2))).
Proof.
  split; [reflexivity |]. split; [reflexivity |]. split; [reflexivity |].
  split; [reflexivity |].
  split; [eexists; reflexivity |]. split; [reflexivity |].
  vm_compute. discriminate.
Qed.

(** C6, amended: the lookup derives for a reading with intra-month day [d]
    in month [m] the number [(c1 + ... + c(m-1)) + d], and returns the first
    reading in plan order whose derived number is the computed cycle day
    number.  For three months the third month's reading with intra-month
    day 2 is therefore returned exactly when the day number is [c1 + c2 + 2]
    and no earlier reading derives the same number; that proviso holds when
    it is the first reading of its month with day 2 and no reading of the
    first two months has an intra-month day above its month's count. *)
Theorem ethiopian_global_day_lookup (date : Date) (w : World) (n : Z)
    (Hn : result (calculateDayNumber date 365) w = Returned n) :
  let plan := ethiopianPlan (self w) in
  (∀ m r, readingDayNumber plan m r = sumCounts (take m plan) + Entry.day r) ∧
  (∀ m j month rs r,
     plan !! m = Some month → EthMonth.readings month = Some rs →
     rs !! j = Some r →
     forMonths plan n 0 plan = Some (m, j, mergedReading month r)
     ↔ sumCounts (take m plan) + Entry.day r = n ∧ firstWith plan n m j) ∧
  (∀ m j e,
     forMonths plan n 0 plan = Some (m, j, e) →
     result (getEthiopianReading date) w = Returned (ethiopianAssignment n e)) ∧
  (∀ m1 m2 m3 rs3 j r,
     plan = [m1; m2; m3] → EthMonth.readings m3 = Some rs3 →
     rs3 !! j = Some r → Entry.day r = 2 →
     (forMonths plan n 0 plan = Some (2%nat, j, mergedReading m3 r)
      ↔ n = readingCount m1 + readingCount m2 + 2 ∧ firstWith plan n 2 j) ∧
     ((∀ j' r', rs3 !! j' = Some r' → (j' < j)%nat → Entry.day r' ≠ 2) →
      (∀ r', r' ∈ monthReadings m1 → Entry.day r' ≤ readingCount m1) →
      (∀ r', r' ∈ monthReadings m2 → Entry.day r' ≤ readingCount m2) →
      (forMonths plan n 0 plan = Some (2%nat, j, mergedReading m3 r)
       ↔ n = readingCount m1 + readingCount m2 + 2))).
Proof.
  intros plan.
  split; [intros; apply readingDayNumber_sum |].
  split; [intros m j month rs r ? ? ?; by apply (lookup_position _ _ _ _ _ rs) |].
  split.
  { intros m j e He. unfold result. rewrite getEthiopianReading_run. simpl.
    rewrite calculateDayNumber_result in Hn. injection Hn as ->.
    fold plan. by rewrite He. }
  intros m1 m2 m3 rs3 j r Hplan Hrs3 Hj Hday.
  assert (Hpos : forMonths plan n 0 plan = Some (2%nat, j, mergedReading m3 r)
                 ↔ n = readingCount m1 + readingCount m2 + 2 ∧ firstWith plan n 2 j).
  { rewrite (lookup_position plan n 2 j m3 rs3 r); [| by rewrite Hplan | done | done].
    rewrite Hplan, Hday. simpl. split; intros [? ?]; split; (lia || done). }
  split; [exact Hpos |].
  intros Hfirst H1 H2. rewrite Hpos. split; [tauto |].
  intros ->. split; [done |]. split.
  - intros month j' r' Hm Hj' Hlt. rewrite Hplan in Hm. injection Hm as <-.
    unfold monthReadings in Hj'. rewrite Hrs3 in Hj'. simpl in Hj'.
    rewrite Hplan. simpl. specialize (Hfirst j' r' Hj' Hlt). lia.
  - intros m' month' r' Hlt Hm' Hin. rewrite Hplan in Hm' |- *.
    pose proof (readingCount_monthReadings m2).
    destruct m' as [|[|m']]; simpl in Hm'; [| | lia]; injection Hm' as <-; simpl.
    + specialize (H1 r' Hin). lia.
    + specialize (H2 r' Hin). lia.
Qed.

Lemma ethiopian_global_day_lookup_witness :
  result (getEthiopianReading (utcMidnight 2024 1 5)) (worldEthiopian densePlan)
  = Returned (ethiopianAssignment 5
                (mergedReading (ethMonth "Hidar" [1; 2]) (ethReading 2))).
Proof.
  pose proof (ethiopian_global_day_lookup (utcMidnight 2024 1 5)
                (worldEthiopian densePlan) 5 eq_refl) as (_ & _ & Hret & H3).
  apply (Hret 2%nat 1%nat).
  destruct (H3 (ethMonth "Meskerem" [1; 2]) (ethMonth "Tikimt" [1])
               (ethMonth "Hidar" [1; 2]) (ethReading <$> [1; 2]) 1%nat
               (ethReading 2) eq_refl eq_refl eq_refl eq_refl) as [_ Hdense].
  apply Hdense; [| | | reflexivity].
  - intros [|j'] r' Hj' Hlt; [| lia]. simpl in Hj'. injection Hj' as <-.
    simpl. lia.
  - intros r' Hin. apply list_elem_of_In in Hin. simpl in Hin.
    destruct Hin as [<-|[<-|[]]]; vm_compute; discriminate.
  - intros r' Hin. apply list_elem_of_In in Hin. simpl in Hin.
    destruct Hin as [<-|[]]; vm_compute; discriminate.
Defined.

(** C10, as stated, fails for a reading outside the first month when the
    earlier months have no readings: for day number 1 the lookup returns the
    first reading of the second month, and the number in the title is the
    assignment's [day]. *)
Lemma empty_first_month_same_number :
  forMonths emptyFirstMonthPlan 1 0 emptyFirstMonthPlan
    = Some (1%nat, 0%nat, mergedReading (ethMonth "Tikimt" [1; 2]) (ethReading 1)) ∧
  ∃ a, result (getEthiopianReading (utcMidnight 2024 1 1))
              (worldEthiopian emptyFirstMonthPlan) = Returned a ∧
       Assignment.day a = Entry.day (ethReading 1) ∧
       Assignment.title a = "Tikimt Day " +:+ tplNum (Entry.day (ethReading 1)) ∧
       Assignment.title a = "Tikimt Day " +:+ tplNum (Assignment.day a).
Proof. split; [reflexivity |]. eexists. repeat split; reflexivity. Qed.

(** C10, amended: when the Ethiopian lookup finds a reading, the
    assignment's [day] is the cycle day number, which is the offset of the
    reading's month plus its intra-month day, while the title shows the
    intra-month day; the two numbers differ exactly when the offset is not
    zero, that is, when some earlier month has a reading. *)
Theorem ethiopian_title_shows_month_day (date : Date) (w : World) (n : Z)
    (m j : nat) (month : EthMonth.t) (rs : list Entry.t) (r : Entry.t)
    (Hn : result (calculateDayNumber date 365) w = Returned n)
    (Hm : ethiopianPlan (self w) !! m = Some month)
    (Hrs : EthMonth.readings month = Some rs)
    (Hj : rs !! j = Some r)
    (Hfound : forMonths (ethiopianPlan (self w)) n 0 (ethiopianPlan (self w))
              = Some (m, j, mergedReading month r)) :
  let offset := sumCounts (take m (ethiopianPlan (self w))) in
  let feast := orElse (Entry.feast r) (EthMonth.feast month) in
  ∃ a, result (getEthiopianReading date) w = Returned a ∧
       Assignment.day a = n ∧
       Assignment.day a = offset + Entry.day r ∧
       Assignment.title a
       = tpl (EthMonth.name month) +:+ " Day " +:+ tplNum (Entry.day r)
         +:+ (if truthy feast then " - " +:+ tpl feast else EmptyString) ∧
       (Entry.day r ≠ Assignment.day a ↔ offset ≠ 0) ∧
       (tplNum (Entry.day r) ≠ tplNum (Assignment.day a) ↔ offset ≠ 0) ∧
       (offset ≠ 0 ↔ ∃ m' month', (m' < m)%nat ∧
                       ethiopianPlan (self w) !! m' = Some month' ∧
                       monthReadings month' ≠ []).
Proof.
  intros offset feast.
  exists (ethiopianAssignment n (mergedReading month r)).
  assert (Hsum : offset + Entry.day r = n).
  { by apply (lookup_position _ _ _ _ _ rs) in Hfound as [? _]. }
  split.
  { unfold result. rewrite getEthiopianReading_run. simpl.
    rewrite calculateDayNumber_result in Hn. injection Hn as ->.
    by rewrite Hfound. }
  simpl. repeat split; try done; try lia.
  - intros Hne Hoff. apply Hne. f_equal. lia.
  - intros Hoff Heq. unfold tplNum in Heq. apply (inj pretty) in Heq. lia.
  - by apply sumCounts_take_nonzero.
  - by apply sumCounts_take_nonzero.
Qed.

Lemma ethiopian_title_shows_month_day_witness :
  ∃ a, result (getEthiopianReading (utcMidnight 2024 1 5)) (worldEthiopian densePlan)
       = Returned a ∧
       Assignment.day a = 5 ∧ Assignment.title a = "Hidar Day 2".
Proof.
  destruct (ethiopian_title_shows_month_day (utcMidnight 2024 1 5)
              (worldEthiopian densePlan) 5 2 1 (ethMonth "Hidar" [1; 2])
              (ethReading <$> [1; 2]) (ethReading 2)
              eq_refl eq_refl eq_refl eq_refl eq_refl)
    as (a & Ha & Hday & _ & Htitle & _).
  exists a. repeat split; [exact Ha | exact Hday | exact Htitle].
Defined.

(** * Further properties of the module *)

(** ** Loading *)

Lemma world_eta (w : World) :
  {| self := {| nt90Plan := nt90Plan (self w);
                ot365Plan := ot365Plan (self w);
                ethiopianPlan := ethiopianPlan (self w);
                currentPlanType := currentPlanType (self w) |};
     storage := storage w |} = w.
Proof. by destruct w as [[? ? ? ?] ?]. Qed.

Lemma fileMap_known p : is_Some (fileMap p) ↔ knownPlanType p.
Proof.
  unfold fileMap, knownPlanType.
  destruct (String.eqb_spec p "nt90"); [split; eauto |].
  destruct (String.eqb_spec p "ot365"); [split; eauto |].
  destruct (String.eqb_spec p "ethiopian"); [split; eauto |].
  split; [by intros [? ?] | by intros [?|[?|?]]].
Qed.

Lemma ingested_other p data w : ¬ knownPlanType p → ingested p data w = w.
Proof.
  intros H. unfold ingested.
  destruct (eqb_known _ H) as (-> & -> & ->). apply world_eta.
Qed.

(** A load, case by case. *)
Lemma loadPlanFromFile_run p fetched w :
  loadPlanFromFile p fetched w
  = if bool_decide (knownPlanType p) || inherited p
    then match fetched with
         | Some data => (Returned true, ingested p data w)
         | None => (Returned false, w)
         end
    else (Thrown ("Unknown plan type: " +:+ p), w).
Proof.
  unfold loadPlanFromFile.
  rewrite (bool_decide_ext _ _ (fileMap_known p)).
  destruct (bool_decide (knownPlanType p) || inherited p); [| done].
  destruct fetched as [data|]; [| done]. run. unfold ingested.
  destruct (String.eqb p "nt90") eqn:E1; [apply String.eqb_eq in E1 as ->; done |].
  destruct (String.eqb p "ot365") eqn:E2; [apply String.eqb_eq in E2 as ->; done |].
  destruct (String.eqb p "ethiopian") eqn:E3; [apply String.eqb_eq in E3 as ->; done |].
  by rewrite world_eta.
Qed.

(** X1: a load throws exactly for a plan type that is neither one of the
    three nor a name inherited from [Object.prototype]; it returns [false]
    exactly when it does not throw and the fetch failed; and whenever it
    throws, returns [false] or is given a plan type outside the three, every
    table, the current plan type and the store are as before. *)
Theorem load_failure_keeps_state (planType : string)
    (fetched : option RawDocument) (w : World) :
  (throws (result (loadPlanFromFile planType fetched) w)
   ↔ ¬ knownPlanType planType ∧ inherited planType = false) ∧
  (result (loadPlanFromFile planType fetched) w = Returned false
   ↔ (knownPlanType planType ∨ inherited planType = true) ∧ fetched = None) ∧
  (result (loadPlanFromFile planType fetched) w ≠ Returned true
   ∨ ¬ knownPlanType planType →
   after (loadPlanFromFile planType fetched) w = w).
Proof.
  unfold result, after, throws. rewrite loadPlanFromFile_run.
  destruct (bool_decide_reflect (knownPlanType planType)) as [Hk|Hk];
    destruct (inherited planType) eqn:Ei;
    destruct fetched as [data|]; simpl;
    rewrite ?(ingested_other _ _ _ Hk);
    (split; [| split]);
    try (split; [intros [msg ?] | intros [? ?]]);
    try (split; [intros ? | intros [[?|?] ?]]);
    try (intros [?|?]);
    try done; try (by eexists); try tauto.
Qed.

Lemma load_failure_keeps_state_witness :
  after (loadPlanFromFile "valueOf"
           (Some sampleNT90)) world2024
  = world2024.
Proof.
  apply (proj2 (proj2 (load_failure_keeps_state "valueOf" _ world2024))).
  right. unfold knownPlanType. intros [H|[H|H]]; discriminate.
Defined.

Lemma load_known p data w :
  knownPlanType p →
  loadPlanFromFile p (Some data) w = (Returned true, ingested p data w).
Proof.
  intros H. rewrite loadPlanFromFile_run.
  by rewrite (bool_decide_eq_true_2 _ H).
Qed.

(** X2: a document that arrives without the array its loader reads is not
    an error: the load returns [true] and replaces the table, whatever it
    held, by the empty one, so the next reading for that plan is the
    fallback. *)
Theorem load_without_array_empties_table (date : Date) (data : RawDocument)
    (w : World) :
  (schedule data = None →
   let w' := after (loadPlanFromFile "nt90" (Some data)) w in
   result (loadPlanFromFile "nt90" (Some data)) w = Returned true ∧
   nt90Plan (self w') = [] ∧
   ∃ n, result (getReadingForDate date (Some "nt90")) w' = Returned (ntFallback n)) ∧
  (monthlyPlans data = None →
   let w' := after (loadPlanFromFile "ot365" (Some data)) w in
   result (loadPlanFromFile "ot365" (Some data)) w = Returned true ∧
   ot365Plan (self w') = [] ∧
   ∃ n, result (getReadingForDate date (Some "ot365")) w' = Returned (otFallback n)) ∧
  (months data = None →
   let w' := after (loadPlanFromFile "ethiopian" (Some data)) w in
   result (loadPlanFromFile "ethiopian" (Some data)) w = Returned true ∧
   ethiopianPlan (self w') = [] ∧
   ∃ n, result (getReadingForDate date (Some "ethiopian")) w' = Returned (otFallback n)).
Proof.
  unfold result, after.
  rewrite !load_known by (unfold knownPlanType; auto). simpl.
  split; [| split]; intros Hnone.
  - rewrite Hnone. simpl. repeat split.
    rewrite getReadingForDate_dispatch. simpl. rewrite getNT90Reading_run. simpl.
    rewrite Hnone. simpl. eauto.
  - unfold flattenOT365Plan, pushedRecords. rewrite Hnone. simpl. repeat split.
    rewrite getReadingForDate_dispatch. simpl. rewrite getOT365Reading_run. simpl.
    unfold flattenOT365Plan, pushedRecords. rewrite Hnone. simpl. eauto.
  - rewrite Hnone. simpl. repeat split.
    rewrite getReadingForDate_dispatch. simpl. rewrite getEthiopianReading_run.
    simpl. rewrite Hnone. simpl. eauto.
Qed.

Lemma load_without_array_empties_table_witness :
  nt90Plan (self (after (loadPlanFromFile "nt90" (Some sampleOT365))
                        (ingested "nt90" sampleNT90 world2024))) = [].
Proof.
  apply (proj1 (load_without_array_empties_table (utcMidnight 2024 1 1)
                  sampleOT365 _)).
  reflexivity.
Defined.

(** X3: loading and looking up.  After the NT90 schedule has been loaded,
    a reading for a date whose day number is [n] is built from the first
    entry of the schedule whose [day] is [n], and is the fallback when the
    schedule has no such entry. *)
Theorem nt90_load_then_read (date : Date) (data : RawDocument)
    (entries : list Entry.t) (w : World) (n : Z)
    (Hdoc : schedule data = Some entries)
    (Hn : result (calculateDayNumber date 90)
            (withPlan "nt90" (after (loadPlanFromFile "nt90" (Some data)) w))
          = Returned n) :
  let w' := after (loadPlanFromFile "nt90" (Some data)) w in
  (∀ i e, entries !! i = Some e → Entry.day e = n →
          (∀ j e', entries !! j = Some e' → (j < i)%nat → Entry.day e' ≠ n) →
          result (getReadingForDate date (Some "nt90")) w'
          = Returned {| Assignment.day := n;
                        Assignment.title :=
                          "Day " +:+ tplNum n +:+ ": " +:+ tpl (Entry.theme e);
                        Assignment.passages := [Entry.reading e];
                        Assignment.theme := Entry.theme e;
                        Assignment.month := None;
                        Assignment.focus := None;
                        Assignment.feast := None;
                        Assignment.chapters := orThree (Entry.chapters e) |}) ∧
  ((∀ e, e ∈ entries → Entry.day e ≠ n) →
   result (getReadingForDate date (Some "nt90")) w' = Returned (ntFallback n)).
Proof.
  intros w'. subst w'. revert Hn. unfold result, after.
  rewrite load_known by (unfold knownPlanType; auto). simpl.
  rewrite calculateDayNumber_run. simpl. intros [= Hn].
  rewrite getReadingForDate_dispatch. simpl. rewrite getNT90Reading_run. simpl.
  rewrite Hdoc, Hn. simpl. split.
  - intros i e Hi He Hfirst.
    assert (Hfind : Array_find (λ r, Entry.day r = n) entries = Some (i, e)).
    { apply list_find_Some. repeat split; [done | done |].
      intros j e' Hj Hlt. by apply (Hfirst j). }
    rewrite Hfind. unfold nt90Assignment. by rewrite He.
  - intros Hnone.
    assert (Hfind : Array_find (λ r, Entry.day r = n) entries = None).
    { apply list_find_None. by apply Forall_forall. }
    by rewrite Hfind.
Qed.

Lemma nt90_load_then_read_witness :
  result (getReadingForDate (utcMidnight 2024 1 2) (Some "nt90"))
         (after (loadPlanFromFile "nt90" (Some sampleNT90)) world2024)
  = Returned {| Assignment.day := 2;
                Assignment.title := "Day 2: Creation";
                Assignment.passages := ["Genesis 1-3"];
                Assignment.theme := Some "Creation";
                Assignment.month := None;
                Assignment.focus := None;
                Assignment.feast := None;
                Assignment.chapters := 4 |}.
Proof.
  apply (proj1 (nt90_load_then_read (utcMidnight 2024 1 2) sampleNT90
                  [sampleDay 1 None; sampleDay 2 (Some 4)] world2024 2
                  eq_refl eq_refl) 1%nat (sampleDay 2 (Some 4)) eq_refl eq_refl).
  intros [|j] e' Hj Hlt; [| lia]. simpl in Hj. injection Hj as <-. done.
Defined.

(** [find] returns the head of the elements that satisfy the callback. *)
Lemma Array_find_head_filter {A} (P : A → Prop) `{∀ x, Decision (P x)} (l : list A) :
  snd <$> Array_find P l = head (filter P l).
Proof.
  unfold Array_find. induction l as [|x l IH]; [done |].
  rewrite filter_cons. cbn [list_find]. destruct (decide (P x)); [done |].
  rewrite <- IH. by destruct (list_find P l) as [[? ?]|].
Qed.

(** Looking a day up in the sorted table finds what it finds in the
    records in document order. *)
Lemma find_after_sort (n : Z) (l : list Entry.t) :
  snd <$> Array_find (λ r, Entry.day r = n) (Array_sort byDay l)
  = snd <$> Array_find (λ r, Entry.day r = n) l.
Proof.
  rewrite !Array_find_head_filter. f_equal.
  apply Array_sort_stable. unfold byDay. intros a b. lia.
Qed.

(** X4: loading and looking up, OT365.  Although the table is sorted, a
    reading for day number [n] is built from the day entry that comes first
    in the document among those whose [day] is [n], with the labels of its
    month; when no day entry has that number the fallback is returned. *)
Theorem ot365_load_then_read (date : Date) (data : RawDocument) (w : World)
    (n : Z)
    (Hn : result (calculateDayNumber date 365)
            (withPlan "ot365" (after (loadPlanFromFile "ot365" (Some data)) w))
          = Returned n) :
  let w' := after (loadPlanFromFile "ot365" (Some data)) w in
  let records := pushedRecords data in
  (∀ i r, records !! i = Some r → Entry.day r = n →
          (∀ j r', records !! j = Some r' → (j < i)%nat → Entry.day r' ≠ n) →
          result (getReadingForDate date (Some "ot365")) w'
          = Returned {| Assignment.day := n;
                        Assignment.title :=
                          "Day " +:+ tplNum n +:+ ": " +:+ tpl (Entry.theme r);
                        Assignment.passages := [Entry.reading r];
                        Assignment.theme := Entry.theme r;
                        Assignment.month := Entry.month r;
                        Assignment.focus := Entry.focus r;
                        Assignment.feast := None;
                        Assignment.chapters := orThree (Entry.chapters r) |}) ∧
  ((∀ r, r ∈ records → Entry.day r ≠ n) →
   result (getReadingForDate date (Some "ot365")) w' = Returned (otFallback n)).
Proof.
  intros w' records. subst w'. revert Hn. unfold result, after.
  rewrite load_known by (unfold knownPlanType; auto). simpl.
  rewrite calculateDayNumber_run. simpl. intros [= Hn].
  rewrite getReadingForDate_dispatch. simpl. rewrite getOT365Reading_run. simpl.
  rewrite Hn. unfold flattenOT365Plan. fold records.
  pose proof (find_after_sort n records) as Hsort.
  split.
  - intros i r Hi Hr Hfirst.
    assert (Hfind : Array_find (λ r, Entry.day r = n) records = Some (i, r)).
    { apply list_find_Some. repeat split; [done | done |].
      intros j r' Hj Hlt. by apply (Hfirst j). }
    rewrite Hfind in Hsort.
    destruct (Array_find _ (Array_sort byDay records)) as [[i' r']|];
      [| done].
    simpl in Hsort. injection Hsort as ->.
    unfold ot365Assignment. by rewrite Hr.
  - intros Hnone.
    assert (Hfind : Array_find (λ r, Entry.day r = n) records = None).
    { apply list_find_None. by apply Forall_forall. }
    rewrite Hfind in Hsort.
    by destruct (Array_find _ (Array_sort byDay records)) as [[i' r']|].
Qed.

Lemma ot365_load_then_read_witness :
  result (getReadingForDate (utcMidnight 2024 1 1) (Some "ot365"))
         (after (loadPlanFromFile "ot365" (Some sampleOT365)) world2024)
  = Returned {| Assignment.day := 1;
                Assignment.title := "Day 1: Creation";
                Assignment.passages := ["Genesis 1-3"];
                Assignment.theme := Some "Creation";
                Assignment.month := Some "January";
                Assignment.focus := Some "Beginnings";
                Assignment.feast := None;
                Assignment.chapters := 5 |}.
Proof.
  apply (proj1 (ot365_load_then_read (utcMidnight 2024 1 1) sampleOT365
                  world2024 1 eq_refl) 1%nat
               (flatRecord january (sampleDay 1 (Some 5))) eq_refl eq_refl).
  intros [|j] r' Hj Hlt; [| lia]. simpl in Hj. injection Hj as <-. done.
Defined.

(** ** Initialisation *)

Lemma settled_load p fetched w :
  after (settled (loadPlanFromFile p fetched)) w = loaded (p, fetched) w.
Proof.
  unfold after, settled, loaded. simpl. rewrite loadPlanFromFile_run.
  destruct (bool_decide_reflect (knownPlanType p)) as [Hk|Hk];
    destruct (inherited p); destruct fetched;
    simpl; rewrite ?(ingested_other _ _ _ Hk); done.
Qed.

Lemma loadAll_run loads w :
  loadAll loads w = (Returned tt, foldl (λ w' load, loaded load w') w loads).
Proof.
  revert w. induction loads as [|[p fetched] loads IH]; intros w; [done |].
  cbn [loadAll foldl]. rewrite <- settled_load, <- IH.
  unfold after, settled. by run.
Qed.

Lemma ingested_comm p1 d1 p2 d2 w :
  p1 ≠ p2 →
  ingested p1 d1 (ingested p2 d2 w) = ingested p2 d2 (ingested p1 d1 w).
Proof.
  intros Hne. unfold ingested. simpl.
  destruct (String.eqb_spec p1 "nt90"); destruct (String.eqb_spec p2 "nt90");
    destruct (String.eqb_spec p1 "ot365"); destruct (String.eqb_spec p2 "ot365");
    destruct (String.eqb_spec p1 "ethiopian");
    destruct (String.eqb_spec p2 "ethiopian");
    try done; congruence.
Qed.

Lemma loaded_comm l1 l2 w :
  l1.1 ≠ l2.1 → loaded l1 (loaded l2 w) = loaded l2 (loaded l1 w).
Proof.
  destruct l1 as [p1 [d1|]], l2 as [p2 [d2|]]; unfold loaded; simpl; try done.
  apply ingested_comm.
Qed.

(** X5: loads of different plan types do not interfere.  Whatever the order
    in which the fetches of pairwise different plan types complete, the
    loads leave the same tables, current plan type and store. *)
Theorem loads_commute (loads loads' : list (string * option RawDocument))
    (w : World) :
  loads ≡ₚ loads' → NoDup loads.*1 →
  after (loadAll loads) w = after (loadAll loads') w.
Proof.
  unfold after. rewrite !loadAll_run. simpl.
  intros Hperm. revert w.
  induction Hperm as [|x l l' Hperm IH|x y l|l l' l'' Hperm IH Hperm' IH'];
    intros w Hnodup.
  - done.
  - simpl. apply IH. by apply NoDup_cons_1_2 in Hnodup.
  - simpl. rewrite loaded_comm; [done |].
    rewrite !fmap_cons in Hnodup. apply NoDup_cons in Hnodup as [Hy _].
    intros Heq. apply Hy. rewrite Heq. apply list_elem_of_here.
  - rewrite IH by done. apply IH'. by rewrite <- Hperm.
Qed.

Lemma loads_commute_witness :
  after (loadAll [("ethiopian", Some {| schedule := None; monthlyPlans := None;
                                        months := Some densePlan |});
                  ("nt90", Some sampleNT90); ("ot365", None)]) world2024
  = after (loadAll [("nt90", Some sampleNT90); ("ot365", None);
                    ("ethiopian", Some {| schedule := None; monthlyPlans := None;
                                          months := Some densePlan |})]) world2024.
Proof.
  apply loads_commute.
  - apply Permutation_cons_append.
  - refine (bool_decide_unpack _ _). vm_compute. exact I.
Defined.

(** X6: [init] never throws and returns [true], even when every fetch
    fails.  Afterwards the current plan type is the one the store holds,
    each table is what its document gave, or what it was when its fetch
    failed, and the store is untouched. *)
Theorem init_outcome (nt90 ot365 ethiopian : option RawDocument) (w : World) :
  let w' := after (init nt90 ot365 ethiopian) w in
  result (init nt90 ot365 ethiopian) w = Returned true ∧
  currentPlanType (self w') = currentPlan (storage w) ∧
  storage w' = storage w ∧
  nt90Plan (self w') = from_option (λ data, default [] (schedule data))
                                   (nt90Plan (self w)) nt90 ∧
  ot365Plan (self w') = from_option flattenOT365Plan (ot365Plan (self w)) ot365 ∧
  ethiopianPlan (self w') = from_option (λ data, default [] (months data))
                                        (ethiopianPlan (self w)) ethiopian.
Proof.
  unfold result, after, init.
  unfold mbind, M_bind. rewrite loadAll_run. run.
  unfold loaded.
  destruct nt90, ot365, ethiopian; simpl; repeat split; reflexivity.
Qed.

(** ** Readings *)

Lemma orThree_nonzero c : orThree c ≠ 0.
Proof.
  unfold orThree. destruct c as [c|]; [| done].
  destruct (Z.eqb_spec c 0); [done | done].
Qed.

Lemma found_day n (plan : list Entry.t) i r :
  Array_find (λ r, Entry.day r = n) plan = Some (i, r) → Entry.day r = n.
Proof. unfold Array_find. by intros (_ & ? & _)%list_find_Some. Qed.

(** The shape of every assignment handed out. *)
Lemma getReadingForDate_day date planType w :
  ∃ a, result (getReadingForDate date planType) w = Returned a ∧
       Assignment.day a
       = dayNumberAt date (cycleLength (chosenPlan planType w))
                     (withPlan (chosenPlan planType w) w) ∧
       Assignment.chapters a ≠ 0 ∧
       length (Assignment.passages a) = 1%nat.
Proof.
  unfold result. rewrite getReadingForDate_dispatch. simpl.
  unfold cycleLength.
  set (p := chosenPlan planType w). set (w1 := withPlan p w).
  destruct (String.eqb_spec p "nt90") as [Hp|Hp].
  { rewrite Hp. simpl. rewrite getNT90Reading_run. eexists. split; [done |].
    destruct (Array_find _ _) as [[i r]|] eqn:E; simpl;
      [apply found_day in E | done].
    split; [done |]. split; [apply orThree_nonzero | done]. }
  destruct (String.eqb p "ot365").
  { rewrite getOT365Reading_run. eexists. split; [done |].
    destruct (Array_find _ _) as [[i r]|] eqn:E; simpl;
      [apply found_day in E | done].
    split; [done |]. split; [apply orThree_nonzero | done]. }
  destruct (String.eqb p "ethiopian").
  { rewrite getEthiopianReading_run. eexists. split; [done |].
    destruct (forMonths _ _ _ _) as [[[m j] e]|]; simpl; [| done].
    split; [done |]. split; [apply orThree_nonzero | done]. }
  rewrite getNT90Reading_run. eexists. split; [done |].
  destruct (Array_find _ _) as [[i r]|] eqn:E; simpl;
    [apply found_day in E | done].
  split; [done |]. split; [apply orThree_nonzero | done].
Qed.

Lemma cycleLength_pos p : 0 < cycleLength p.
Proof. unfold cycleLength. repeat case_match; lia. Qed.

(** X7: every call of [getReadingForDate] returns an assignment, whether it
    comes from a table or is a fallback, whose [day] is the day number
    [calculateDayNumber] gives for the plan's cycle, hence between 1 and the
    cycle length (and at most the [days] that [getPlanInfo] reports for a
    plan type of the set); it names exactly one passage and its [chapters]
    is never 0.  Entries of a table whose [day] lies outside the cycle are
    therefore never handed out. *)
Theorem reading_is_well_formed (date : Date) (planType : option string)
    (w : World) :
  let p := chosenPlan planType w in
  ∃ a, result (getReadingForDate date planType) w = Returned a ∧
       result (calculateDayNumber date (cycleLength p)) (withPlan p w)
       = Returned (Assignment.day a) ∧
       1 ≤ Assignment.day a ≤ cycleLength p ∧
       length (Assignment.passages a) = 1%nat ∧
       Assignment.chapters a ≠ 0 ∧
       (knownPlanType p →
        ∃ info, getPlanInfo p = Returned (Info info) ∧
                Assignment.day a ≤ days info).
Proof.
  intros p.
  destruct (getReadingForDate_day date planType w) as (a & Ha & Hday & Hch & Hlen).
  fold p in Hday. exists a. split; [done |].
  pose proof (dayNumberAt_range date (cycleLength p) (withPlan p w)
                (cycleLength_pos p)) as Hrange.
  rewrite <- Hday in Hrange.
  split; [by rewrite calculateDayNumber_result, Hday |].
  split; [done |]. split; [done |]. split; [done |].
  intros [Hp|[Hp|Hp]]; rewrite Hp in Hrange |- *; eexists;
    (split; [reflexivity |]); simpl; unfold cycleLength in Hrange;
    simpl in Hrange; lia.
Qed.

Lemma reading_is_well_formed_witness :
  ∃ a, result (getReadingForDate (utcMidnight 2024 1 5) (Some "ethiopian"))
              (worldEthiopian densePlan) = Returned a ∧
       Assignment.day a ≤ 365.
Proof.
  destruct (reading_is_well_formed (utcMidnight 2024 1 5) (Some "ethiopian")
              (worldEthiopian densePlan)) as (a & Ha & _ & _ & _ & _ & Hinfo).
  exists a. split; [exact Ha |].
  destruct Hinfo as (info & Hinfo & Hle).
  - right. right. reflexivity.
  - injection Hinfo as <-. exact Hle.
Defined.

Lemma withStart_storage_plan date w :
  currentPlan (storage (withStart date w)) = currentPlan (storage w).
Proof. unfold withStart, adopted. by destruct (_ !! _). Qed.

Lemma chosenPlan_after date planType w :
  chosenPlan planType (after (getReadingForDate date planType) w)
  = chosenPlan planType w.
Proof.
  rewrite getReadingForDate_effect. unfold chosenPlan.
  destruct planType as [[|c s]|]; try done; by rewrite withStart_storage_plan.
Qed.

Lemma withPlan_settled date p w :
  withPlan p (withStart date (withPlan p w)) = withStart date (withPlan p w).
Proof.
  unfold withStart, adopted, withPlan. run.
  by destruct (startDates (storage w) !! p).
Qed.

(** The start date in force once a call has run: the stored one, or the
    date of the call when none was stored. *)
Lemma withStart_lookup date w :
  startDates (storage (withStart date w)) !! currentPlanType (self (withStart date w))
  = Some (default date (startDates (storage w) !! currentPlanType (self w))).
Proof.
  unfold withStart.
  destruct (startDates (storage w) !! currentPlanType (self w)) eqn:E; simpl.
  - done.
  - apply adopted_start.
Qed.

Lemma dayNumberAt_default date L w :
  0 < L →
  dayNumberAt date L w
  = cycleDay (elapsedDays date
                (default date (startDates (storage w) !! currentPlanType (self w)))) L.
Proof.
  intros HL. unfold dayNumberAt.
  destruct (startDates (storage w) !! currentPlanType (self w)); simpl; [done |].
  rewrite elapsedDays_same, cycleDay_mod by done. by rewrite Z.mod_0_l by lia.
Qed.

(** The day of the assignment of a call that follows a first one. *)
Lemma second_call_day date date2 planType w :
  let p := chosenPlan planType w in
  let start := default date (startDates (storage w) !! p) in
  ∃ a, result (getReadingForDate date2 planType)
              (after (getReadingForDate date planType) w) = Returned a ∧
       Assignment.day a = cycleDay (elapsedDays date2 start) (cycleLength p).
Proof.
  intros p start.
  destruct (getReadingForDate_day date2 planType
              (after (getReadingForDate date planType) w)) as (a & Ha & Hday & _).
  exists a. split; [done |]. rewrite Hday.
  rewrite chosenPlan_after. fold p.
  rewrite getReadingForDate_effect. fold p. rewrite withPlan_settled.
  unfold dayNumberAt. by rewrite withStart_lookup.
Qed.

(** X8: asking again changes nothing.  A second call with the same date and
    plan type returns the same assignment and leaves the state as the first
    call left it. *)
Theorem reading_call_idempotent (date : Date) (planType : option string)
    (w : World) :
  getReadingForDate date planType (after (getReadingForDate date planType) w)
  = (result (getReadingForDate date planType) w,
     after (getReadingForDate date planType) w).
Proof.
  rewrite (getReadingForDate_dispatch date planType (after _ w)).
  rewrite chosenPlan_after. unfold result.
  rewrite getReadingForDate_effect, getReadingForDate_dispatch.
  set (p := chosenPlan planType w).
  cbv zeta. rewrite withPlan_settled. set (w0 := withPlan p w).
  repeat case_match;
    rewrite !getNT90Reading_run || rewrite !getOT365Reading_run
    || rewrite !getEthiopianReading_run;
    by rewrite withStart_idem, withStart_self, dayNumberAt_withStart by lia.
Qed.

(** X9: the first call for a plan type without a start date returns day 1
    and stores its date as the start; from then on a call made [k] whole
    days and any part of a day later (or earlier, for negative [k]), and
    less than 2^53 milliseconds away, returns day [k mod L + 1], with [L]
    the cycle length. *)
Theorem first_call_starts_cycle (date : Date) (planType : option string)
    (w : World) (k t : Z) :
  let p := chosenPlan planType w in
  startDates (storage w) !! p = None → 0 ≤ t < msPerDay →
  near (date + k * msPerDay + t) date →
  ∃ a1 a2,
    result (getReadingForDate date planType) w = Returned a1 ∧
    Assignment.day a1 = 1 ∧
    startDates (storage (after (getReadingForDate date planType) w)) !! p
      = Some date ∧
    result (getReadingForDate (date + k * msPerDay + t) planType)
           (after (getReadingForDate date planType) w) = Returned a2 ∧
    Assignment.day a2 = k mod cycleLength p + 1.
Proof.
  intros p Hfresh Ht Hnear.
  destruct (getReadingForDate_day date planType w) as (a1 & Ha1 & Hday1 & _).
  destruct (second_call_day date (date + k * msPerDay + t) planType w)
    as (a2 & Ha2 & Hday2).
  fold p in Hday1, Hday2. rewrite Hfresh in Hday2. simpl in Hday2.
  exists a1, a2. split; [done |]. split.
  { rewrite Hday1. unfold dayNumberAt, withPlan. run. by rewrite Hfresh. }
  split.
  { rewrite getReadingForDate_effect. fold p.
    pose proof (withStart_lookup date (withPlan p w)) as H.
    rewrite withStart_self in H. unfold withPlan in H at 2 3. simpl in H.
    by rewrite Hfresh in H. }
  split; [done |].
  rewrite Hday2, cycleDay_mod by apply cycleLength_pos. f_equal.
  f_equal. rewrite elapsedDays_exact by done.
  replace (date + k * msPerDay + t - date) with (t + k * msPerDay) by lia.
  rewrite Z.div_add by done. rewrite Z.div_small by done. lia.
Qed.

Lemma first_call_starts_cycle_witness :
  ∃ a, result (getReadingForDate (utcDate 2024 4 1 23 59) (Some "ot365"))
              (after (getReadingForDate (utcMidnight 2024 1 1) (Some "ot365"))
                     world2024) = Returned a ∧
       Assignment.day a = 92.
Proof.
  destruct (first_call_starts_cycle (utcMidnight 2024 1 1) (Some "ot365")
              world2024 91 ((23 * 60 + 59) * 60 * 1000) eq_refl)
    as (a1 & a2 & _ & _ & _ & Ha2 & Hday).
  { unfold msPerDay. lia. }
  { by vm_compute. }
  exists a2. split; [exact Ha2 | exact Hday].
Defined.

(** X10: once a call has run, a call [k] times 24 hours after it returns the
    day number moved on by [k] within the cycle: day [(d - 1 + k) mod L + 1]
    when the first call returned day [d], provided both dates are less than
    2^53 milliseconds from the start date in force (the stored one, or the
    date of the first call when none is stored).  One day later this is the
    next day, and day 1 after day [L]. *)
Theorem later_call_advances (date : Date) (planType : option string)
    (w : World) (k : Z) :
  let p := chosenPlan planType w in
  let L := cycleLength p in
  let start := default date (startDates (storage w) !! p) in
  near date start → near (date + k * msPerDay) start →
  ∃ a1 a2,
    result (getReadingForDate date planType) w = Returned a1 ∧
    result (getReadingForDate (date + k * msPerDay) planType)
           (after (getReadingForDate date planType) w) = Returned a2 ∧
    Assignment.day a2 = (Assignment.day a1 - 1 + k) mod L + 1 ∧
    (k = 1 → Assignment.day a2
             = if Assignment.day a1 =? L then 1 else Assignment.day a1 + 1).
Proof.
  intros p L start Hnear1 Hnear2.
  destruct (getReadingForDate_day date planType w) as (a1 & Ha1 & Hday1 & _).
  destruct (second_call_day date (date + k * msPerDay) planType w)
    as (a2 & Ha2 & Hday2).
  fold p L start in Hday1, Hday2.
  assert (HL : 0 < L) by apply cycleLength_pos.
  rewrite dayNumberAt_default in Hday1 by done.
  unfold withPlan in Hday1 at 1. simpl in Hday1. fold start in Hday1.
  rewrite elapsedDays_shift in Hday2 by done.
  rewrite cycleDay_mod in Hday1, Hday2 by done.
  set (e := elapsedDays date start) in *.
  assert (Hadv : Assignment.day a2 = (Assignment.day a1 - 1 + k) mod L + 1).
  { rewrite Hday1, Hday2. f_equal.
    replace (e mod L + 1 - 1 + k) with (e mod L + k) by lia.
    by rewrite Z.add_mod_idemp_l by lia. }
  exists a1, a2. split; [done |]. split; [done |]. split; [done |].
  intros ->. rewrite Hadv.
  pose proof (Z.mod_pos_bound e L HL) as Hb.
  destruct (Z.eqb_spec (Assignment.day a1) L) as [Heq|Hne].
  - replace (Assignment.day a1 - 1 + 1) with (0 + 1 * L) by lia.
    by rewrite Z.mod_add, Z.mod_0_l by lia.
  - rewrite Z.mod_small by lia. lia.
Qed.

Lemma later_call_advances_witness :
  ∃ a, result (getReadingForDate (utcMidnight 2023 12 31 + 1 * msPerDay) None)
              (after (getReadingForDate (utcMidnight 2023 12 31) None) world2024)
       = Returned a ∧
       Assignment.day a = 1.
Proof.
  destruct (later_call_advances (utcMidnight 2023 12 31) None world2024 1
              ltac:(by vm_compute) ltac:(by vm_compute))
    as (a1 & a2 & Ha1 & Ha2 & _ & Hnext).
  exists a2. split; [exact Ha2 |].
  rewrite (Hnext eq_refl). vm_compute in Ha1. injection Ha1 as <-. reflexivity.
Defined.

(** ** Statistics and suggested time *)

(** Line 311 in integers: the percentage rounded to the nearest, halves
    going up. *)
Lemma percentOf_div c d : 0 < d → percentOf c d = (200 * c + d) / (2 * d).
Proof.
  intros Hd. destruct d as [|p|p]; try lia.
  unfold percentOf, Math_round, Qfloor. simpl. f_equal; lia.
Qed.

Lemma getPlanInfo_days p info :
  getPlanInfo p = Returned (Info info) → days info = 90 ∨ days info = 365.
Proof.
  unfold getPlanInfo. intros [= H]. revert H.
  repeat case_match; intros [= <-]; simpl; auto.
Qed.

(** X11: for a plan type that does not name a member of [Object.prototype],
    [getReadingStats] reads the store without changing anything and reports
    the plan's [days], the number of completed readings of the store
    whatever the plan type, and [remaining] and [percent] computed from
    them: [percent] is the percentage rounded to the nearest integer, and
    neither is clamped, so with more completed readings than days
    [remaining] is negative and [percent] is 100 or more. *)
Theorem stats_of_plan (planType : string) (w : World)
    (Hown : inherited planType = false ∨ knownPlanType planType) :
  let c := Z.of_nat (completedReadings (storage w)) in
  ∃ info pc,
    getPlanInfo planType = Returned (Info info) ∧
    getReadingStats planType w
    = (Returned {| Stats.totalDays := Some (days info);
                   Stats.completed := c;
                   Stats.percent := Some pc;
                   Stats.remaining := Some (days info - c);
                   Stats.avgChaptersPerDay := Some (avgChaptersPerDay info) |},
       w) ∧
    2 * days info * pc ≤ 200 * c + days info < 2 * days info * (pc + 1) ∧
    (c = days info → pc = 100) ∧
    (days info < c → 100 ≤ pc ∧ days info - c < 0) ∧
    (2 * days info ≤ c → 200 ≤ pc).
Proof.
  intros c.
  assert (Hinfo : ∃ info, getPlanInfo planType = Returned (Info info)).
  { unfold getPlanInfo.
    destruct (String.eqb_spec planType "nt90"); [eauto |].
    destruct (String.eqb_spec planType "ot365"); [eauto |].
    destruct (String.eqb_spec planType "ethiopian"); [eauto |].
    destruct Hown as [-> | [?|[?|?]]]; eauto; done. }
  destruct Hinfo as [info Hinfo].
  exists info, (percentOf c (days info)).
  split; [done |]. split.
  { unfold getReadingStats. rewrite Hinfo. by run. }
  assert (Hd : 0 < days info)
    by (destruct (getPlanInfo_days _ _ Hinfo) as [-> | ->]; lia).
  rewrite percentOf_div by done.
  pose proof (Z.div_mod (200 * c + days info) (2 * days info) ltac:(lia)) as Hdm.
  pose proof (Z.mod_pos_bound (200 * c + days info) (2 * days info) ltac:(lia)).
  set (pc := (200 * c + days info) / (2 * days info)) in *.
  repeat split; intros; nia.
Qed.

Lemma stats_of_plan_witness :
  result (getReadingStats "psalms")
         {| self := initialPlans;
            storage := {| currentPlan := "nt90"; startDates := ∅;
                          completedReadings := 45 |} |}
  = Returned {| Stats.totalDays := Some 90;
                Stats.completed := 45;
                Stats.percent := Some 50;
                Stats.remaining := Some 45;
                Stats.avgChaptersPerDay := Some 2.89%Q |}.
Proof.
  destruct (stats_of_plan "psalms"
              {| self := initialPlans;
                 storage := {| currentPlan := "nt90"; startDates := ∅;
                               completedReadings := 45 |} |}
              (or_introl eq_refl))
    as (info & pc & Hinfo & Hrun & Hround & _).
  unfold result. rewrite Hrun. simpl.
  injection Hinfo as <-. simpl in *. do 2 f_equal. f_equal. lia.
Defined.

(** X12: [getSuggestedTime] never throws and has three possible answers:
    13 to 23 minutes for the plan types [ot365] and [ethiopian], the text
    with [NaN] for a name inherited from [Object.prototype], and 15 to 25
    minutes, the NT90 figure, for every other argument. *)
Theorem suggested_time_cases (planType : string) :
  getSuggestedTime planType
  = Returned (if String.eqb planType "ot365" || String.eqb planType "ethiopian"
              then "13-23 min"
              else if inherited planType then "NaN-NaN min"
              else "15-25 min").
Proof.
  unfold getSuggestedTime, getPlanInfo.
  destruct (String.eqb_spec planType "nt90") as [->|_]; [reflexivity |].
  destruct (String.eqb planType "ot365"); [reflexivity |].
  destruct (String.eqb planType "ethiopian"); [reflexivity |].
  destruct (inherited planType); reflexivity.
Qed.

(** ** The Ethiopian plan with consecutively numbered readings *)

Lemma sumCounts_take_S plan m month :
  plan !! m = Some month →
  sumCounts (take (S m) plan) = sumCounts (take m plan) + readingCount month.
Proof.
  intros H. rewrite (take_S_r _ _ _ H), sumCounts_app. simpl. lia.
Qed.

Lemma sumCounts_take_mono plan m1 m2 :
  (m1 ≤ m2)%nat → sumCounts (take m1 plan) ≤ sumCounts (take m2 plan).
Proof.
  intros Hle.
  rewrite <- (take_drop m1 (take m2 plan)), sumCounts_app, take_take.
  rewrite Nat.min_l by done.
  pose proof (sumCounts_nonneg (drop m1 (take m2 plan))). lia.
Qed.

Lemma sumCounts_take_total plan m : sumCounts (take m plan) ≤ sumCounts plan.
Proof.
  rewrite <- (take_drop m plan) at 2. rewrite sumCounts_app.
  pose proof (sumCounts_nonneg (drop m plan)). lia.
Qed.

Lemma numbered_bound month r :
  numbered month → r ∈ monthReadings month →
  1 ≤ Entry.day r ≤ readingCount month.
Proof.
  intros Hnum [j Hj]%list_elem_of_lookup_1.
  rewrite (Hnum j r Hj), readingCount_monthReadings.
  apply lookup_lt_Some in Hj. lia.
Qed.

(** In such a plan the derived numbers of a month lie above its offset and
    up to the offset of the next month. *)
Lemma numbered_derived plan m month r :
  plan !! m = Some month → numbered month → r ∈ monthReadings month →
  sumCounts (take m plan) < sumCounts (take m plan) + Entry.day r
  ≤ sumCounts (take (S m) plan).
Proof.
  intros Hm Hnum Hin. rewrite (sumCounts_take_S _ _ _ Hm).
  pose proof (numbered_bound _ _ Hnum Hin). lia.
Qed.

Lemma numbered_position plan n :
  Forall numbered plan → 1 ≤ n ≤ sumCounts plan →
  ∃ m j month r, plan !! m = Some month ∧ monthReadings month !! j = Some r ∧
                 n = sumCounts (take m plan) + Z.of_nat j + 1.
Proof.
  intros Hnum. revert n. induction Hnum as [|x plan Hx Hnum IH]; intros n Hn.
  { simpl in Hn. lia. }
  simpl in Hn. destruct (Z.le_gt_cases n (readingCount x)) as [Hle|Hgt].
  - rewrite readingCount_monthReadings in Hle.
    destruct (lookup_lt_is_Some_2 (monthReadings x) (Z.to_nat (n - 1)))
      as [r Hr]; [lia |].
    exists 0%nat, (Z.to_nat (n - 1)), x, r. simpl. repeat split; [done | lia].
  - destruct (IH (n - readingCount x)) as (m & j & month & r & Hm & Hj & Heq);
      [lia |].
    exists (S m), j, month, r. simpl. repeat split; [done | done | lia].
Qed.

(** X13: when every month of the Ethiopian plan numbers its readings 1, 2,
    3, ... in order, the readings are reached one per day of the cycle: day
    number [n] returns the reading at position [j] of month [m] when
    [n = c1 + ... + c(m-1) + j + 1], every day number up to the total count
    has such a reading, and for the days after the total the fallback is
    returned. *)
Theorem numbered_plan_lookup (date : Date) (w : World) (n : Z)
    (Hn : result (calculateDayNumber date 365) w = Returned n)
    (Hnum : Forall numbered (ethiopianPlan (self w))) :
  let plan := ethiopianPlan (self w) in
  (∀ m j month r,
     plan !! m = Some month → monthReadings month !! j = Some r →
     n = sumCounts (take m plan) + Z.of_nat j + 1 →
     result (getEthiopianReading date) w
     = Returned (ethiopianAssignment n (mergedReading month r))) ∧
  (n ≤ sumCounts plan →
   ∃ m j month r, plan !! m = Some month ∧ monthReadings month !! j = Some r ∧
                  n = sumCounts (take m plan) + Z.of_nat j + 1) ∧
  (sumCounts plan < n →
   result (getEthiopianReading date) w = Returned (otFallback n)).
Proof.
  intros plan.
  rewrite calculateDayNumber_result in Hn. injection Hn as Hn.
  pose proof (dayNumberAt_range date 365 w ltac:(lia)) as Hrange.
  rewrite Hn in Hrange.
  assert (Hmonth : ∀ m month, plan !! m = Some month → numbered month).
  { intros m month Hm. rewrite Forall_forall in Hnum. apply Hnum.
    by apply (list_elem_of_lookup_2 _ m). }
  unfold result. rewrite getEthiopianReading_run. simpl. rewrite Hn. fold plan.
  split; [| split].
  - intros m j month r Hm Hj Heq.
    assert (Hrs : ∃ rs, EthMonth.readings month = Some rs ∧ rs !! j = Some r).
    { unfold monthReadings in Hj. destruct (EthMonth.readings month) as [rs|];
        [eauto | done]. }
    destruct Hrs as (rs & Hrs & Hj').
    pose proof (Hmonth m month Hm j r Hj) as Hday.
    assert (Hfound : forMonths plan n 0 plan = Some (m, j, mergedReading month r)).
    { apply (lookup_position plan n m j month rs r Hm Hrs Hj').
      split; [lia |]. split.
      - intros month' j' r' Hm' Hj'' Hlt. rewrite Hm in Hm'. injection Hm' as <-.
        rewrite (Hmonth m month Hm j' r' Hj''). lia.
      - intros m' month' r' Hlt Hm' Hin.
        pose proof (numbered_derived plan m' month' r' Hm' (Hmonth _ _ Hm') Hin).
        pose proof (sumCounts_take_mono plan (S m') m ltac:(lia)). lia. }
    by rewrite Hfound.
  - intros Hle. apply numbered_position; [done | lia].
  - intros Hgt.
    destruct (forMonths plan n 0 plan) as [[[m j] e]|] eqn:E; [| done].
    exfalso. apply forMonths_spec in E
      as (k & month & rs & r & -> & Hk & Hrs & Hj & Hr & _).
    simpl in Hr. rewrite readingDayNumber_sum in Hr.
    assert (Hin : r ∈ monthReadings month).
    { unfold monthReadings. rewrite Hrs. by apply (list_elem_of_lookup_2 _ j). }
    pose proof (numbered_derived plan k month r Hk (Hmonth _ _ Hk) Hin).
    pose proof (sumCounts_take_total plan (S k)). lia.
Qed.

Lemma numbered_plan_lookup_witness :
  result (getEthiopianReading (utcMidnight 2024 1 3)) (worldEthiopian densePlan)
  = Returned (ethiopianAssignment 3
                (mergedReading (ethMonth "Tikimt" [1]) (ethReading 1))) ∧
  result (getEthiopianReading (utcMidnight 2024 1 6)) (worldEthiopian densePlan)
  = Returned (otFallback 6).
Proof.
  assert (Hnum : Forall numbered (ethiopianPlan (self (worldEthiopian densePlan)))).
  { repeat constructor; intros [|[|j]] r Hj; simpl in Hj; try discriminate;
      injection Hj as <-; reflexivity. }
  split.
  - apply (proj1 (numbered_plan_lookup (utcMidnight 2024 1 3)
                    (worldEthiopian densePlan) 3 eq_refl Hnum)
                 1%nat 0%nat (ethMonth "Tikimt" [1]) (ethReading 1));
      reflexivity.
  - apply (proj2 (proj2 (numbered_plan_lookup (utcMidnight 2024 1 6)
                           (worldEthiopian densePlan) 6 eq_refl Hnum))).
    reflexivity.
Defined.

(** ** Plans side by side *)

(** What a reading depends on: the three tables and the start date of the
    plan type settled on. *)
Lemma reading_result_ext date planType w w' :
  chosenPlan planType w' = chosenPlan planType w →
  nt90Plan (self w') = nt90Plan (self w) →
  ot365Plan (self w') = ot365Plan (self w) →
  ethiopianPlan (self w') = ethiopianPlan (self w) →
  startDates (storage w') !! chosenPlan planType w
  = startDates (storage w) !! chosenPlan planType w →
  result (getReadingForDate date planType) w'
  = result (getReadingForDate date planType) w.
Proof.
  intros Hp Hnt Hot Heth Hstart. unfold result.
  rewrite !getReadingForDate_dispatch. rewrite Hp.
  set (p := chosenPlan planType w) in *.
  assert (Hday : ∀ L, dayNumberAt date L (withPlan p w')
                      = dayNumberAt date L (withPlan p w)).
  { intros L. unfold dayNumberAt, withPlan. run. by rewrite Hstart. }
  cbv zeta. repeat case_match;
    rewrite !getNT90Reading_run || rewrite !getOT365Reading_run
    || rewrite !getEthiopianReading_run;
    unfold withPlan; run; by rewrite ?Hday, ?Hnt, ?Hot, ?Heth.
Qed.

(** X14: the plans keep separate start dates.  A call that settles on one
    plan type does not change what a later call returns for a different plan
    type; this holds for a plan type outside the set as well, which is read
    from the NT90 table but counts its days from a start date of its own. *)
Theorem plans_do_not_interfere (date1 date2 : Date)
    (planType1 planType2 : option string) (w : World) :
  chosenPlan planType1 w ≠ chosenPlan planType2 w →
  result (getReadingForDate date2 planType2)
         (after (getReadingForDate date1 planType1) w)
  = result (getReadingForDate date2 planType2) w.
Proof.
  intros Hne. apply reading_result_ext.
  - unfold chosenPlan. rewrite getReadingForDate_effect.
    by rewrite withStart_storage_plan.
  - by rewrite getReadingForDate_effect, withStart_self.
  - by rewrite getReadingForDate_effect, withStart_self.
  - by rewrite getReadingForDate_effect, withStart_self.
  - rewrite getReadingForDate_effect. unfold withStart, adopted, withPlan. run.
    destruct (startDates (storage w) !! chosenPlan planType1 w); [done |].
    simpl. by rewrite lookup_insert_ne.
Qed.

Lemma plans_do_not_interfere_witness :
  result (getReadingForDate (utcMidnight 2024 1 2) (Some "nt90"))
         (after (getReadingForDate (utcMidnight 2023 6 1) (Some "psalms"))
                world2024)
  = Returned (ntFallback 2).
Proof.
  rewrite (plans_do_not_interfere (utcMidnight 2023 6 1) (utcMidnight 2024 1 2)
             (Some "psalms") (Some "nt90") world2024).
  - reflexivity.
  - simpl. discriminate.
Defined.

(** ** The flattened table *)

Lemma Array_sort_sorted_id (l : list Entry.t) :
  StronglySorted dayLe l → Array_sort byDay l = l.
Proof.
  induction 1 as [|x l Hl IH Hx]; [done |].
  simpl. rewrite IH. destruct l as [|y l']; [done |].
  simpl. apply Forall_cons in Hx as [Hxy _]. unfold dayLe in Hxy.
  unfold byDay at 1. by rewrite (proj2 (Z.leb_le _ _)) by lia.
Qed.

Lemma orThree_idem c : orThree (Some (orThree c)) = orThree c.
Proof.
  pose proof (orThree_nonzero c) as Hnz. unfold orThree at 1.
  by rewrite (proj2 (Z.eqb_neq _ _) Hnz).
Qed.

Lemma sorted_by_day (l : list Entry.t) :
  StronglySorted Z.le (Entry.day <$> l) → StronglySorted dayLe l.
Proof.
  induction l as [|x l IH]; [constructor |].
  rewrite fmap_cons. intros [Hx Hl]%StronglySorted_cons.
  constructor; [by apply IH |].
  rewrite Forall_fmap in Hx. exact Hx.
Qed.

(** X15: a document whose day entries already come in non-decreasing order
    of [day] is flattened to its records in document order.  Whatever the
    order, every record of the table is made from a day entry of the
    document, carries no [feast], and has as [chapters] a number other than
    0: 3 when the entry's count is missing or zero and the entry's own count
    otherwise, so that [|| 3] on lookup changes nothing. *)
Theorem flatten_keeps_sorted_document (data : RawDocument) :
  let plans := default [] (monthlyPlans data) in
  let recordOf (monthPlan : MonthPlan.t) (day : Entry.t) : Entry.t :=
    {| Entry.day := Entry.day day;
       Entry.reading := Entry.reading day;
       Entry.theme := Entry.theme day;
       Entry.month := MonthPlan.month monthPlan;
       Entry.focus := MonthPlan.focus monthPlan;
       Entry.feast := None;
       Entry.chapters :=
         Some (match Entry.chapters day with
               | Some c => if c =? 0 then 3 else c
               | None => 3
               end) |} in
  (StronglySorted Z.le
     (Entry.day <$> (plans ≫= λ monthPlan, default [] (MonthPlan.days monthPlan))) →
   flattenOT365Plan data
   = plans ≫= λ monthPlan,
       recordOf monthPlan <$> default [] (MonthPlan.days monthPlan)) ∧
  (∀ record, record ∈ flattenOT365Plan data →
     ∃ monthPlan day c,
       monthPlan ∈ plans ∧ day ∈ default [] (MonthPlan.days monthPlan) ∧
       record = recordOf monthPlan day ∧
       Entry.feast record = None ∧
       Entry.chapters record = Some c ∧ c ≠ 0 ∧
       (Entry.chapters day = None ∨ Entry.chapters day = Some 0 → c = 3) ∧
       (∀ c', Entry.chapters day = Some c' → c' ≠ 0 → c = c') ∧
       orThree (Entry.chapters record) = c).
Proof.
  intros plans recordOf.
  pose proof (pushedRecords_explicit data) as Hpushed. fold plans in Hpushed.
  change (pushedRecords data
          = plans ≫= λ monthPlan,
              recordOf monthPlan <$> default [] (MonthPlan.days monthPlan))
    in Hpushed.
  split.
  - intros Hsorted. rewrite <- Hpushed. apply Array_sort_sorted_id.
    apply sorted_by_day. rewrite Hpushed.
    assert (Hdays : ∀ ms : list MonthPlan.t,
              Entry.day <$> (ms ≫= λ monthPlan,
                 recordOf monthPlan <$> default [] (MonthPlan.days monthPlan))
              = Entry.day <$> (ms ≫= λ monthPlan,
                                 default [] (MonthPlan.days monthPlan))).
    { induction ms as [|m ms IH]; [done |].
      rewrite !bind_cons, !fmap_app, IH. f_equal.
      rewrite <- list_fmap_compose. by apply list_fmap_ext. }
    by rewrite Hdays.
  - intros record Hin. unfold flattenOT365Plan in Hin.
    rewrite Array_sort_perm, Hpushed in Hin.
    apply list_elem_of_bind in Hin as (monthPlan & Hin & Hm).
    apply list_elem_of_fmap in Hin as (day & -> & Hday).
    exists monthPlan, day, (orThree (Entry.chapters day)).
    pose proof (orThree_nonzero (Entry.chapters day)) as Hnz.
    split; [done |]. split; [done |]. split; [done |]. split; [done |].
    split; [done |]. split; [done |]. split; [| split].
    + by intros [-> | ->].
    + intros c' -> Hc'. simpl. by rewrite (proj2 (Z.eqb_neq c' 0) Hc').
    + apply orThree_idem.
Qed.

Lemma flatten_keeps_sorted_document_witness :
  flattenOT365Plan sortedOT365
  = [ Entry.mk 1 "Genesis 1-3" (Some "Creation") (Some "January") None None
               (Some 3);
      Entry.mk 2 "Genesis 1-3" (Some "Creation") (Some "January") None None
               (Some 3);
      Entry.mk 2 "Genesis 1-3" (Some "Creation") (Some "February")
               (Some "Exodus") None (Some 3) ].
Proof.
  apply (proj1 (flatten_keeps_sorted_document sortedOT365)).
  repeat first [ apply SSorted_nil | apply SSorted_cons
               | apply Forall_nil_2 | apply Forall_cons_2
               | (simpl; lia) ].
Defined.

(** ** Feast labels *)

(** X16: in the assignment built from an Ethiopian reading the month is the
    month group's [name], and the feast is the reading's own label when it
    has a non-empty one and the month's label otherwise; the title ends with
    the feast after a dash exactly when that label is a non-empty string. *)
Theorem ethiopian_feast_resolution (date : Date) (w : World) (n : Z)
    (m j : nat) (month : EthMonth.t) (r : Entry.t)
    (Hn : result (calculateDayNumber date 365) w = Returned n)
    (Hfound : forMonths (ethiopianPlan (self w)) n 0 (ethiopianPlan (self w))
              = Some (m, j, mergedReading month r)) :
  ∃ a, result (getEthiopianReading date) w = Returned a ∧
       Assignment.month a = EthMonth.name month ∧
       (truthy (Entry.feast r) = true → Assignment.feast a = Entry.feast r) ∧
       (truthy (Entry.feast r) = false →
        Assignment.feast a = EthMonth.feast month) ∧
       (∀ label, Assignment.feast a = Some label → label ≠ EmptyString →
          Assignment.title a
          = tpl (EthMonth.name month) +:+ " Day " +:+ tplNum (Entry.day r)
            +:+ " - " +:+ label) ∧
       (Assignment.feast a = None ∨ Assignment.feast a = Some EmptyString →
          Assignment.title a
          = tpl (EthMonth.name month) +:+ " Day " +:+ tplNum (Entry.day r)
            +:+ EmptyString).
Proof.
  exists (ethiopianAssignment n (mergedReading month r)). split.
  { unfold result. rewrite getEthiopianReading_run. simpl.
    rewrite calculateDayNumber_result in Hn. injection Hn as ->.
    by rewrite Hfound. }
  simpl. unfold orElse.
  split; [done |]. split; [by intros -> |]. split; [by intros -> |]. split.
  - intros label Hlabel Hne. rewrite Hlabel.
    destruct label; [done | done].
  - intros [Hnone | Hempty]; [by rewrite Hnone | by rewrite Hempty].
Qed.

Lemma ethiopian_feast_resolution_witness :
  ∃ a, result (getEthiopianReading (utcMidnight 2024 1 2)) (worldEthiopian feastPlan)
       = Returned a ∧
       Assignment.feast a = Some "Enkutatash" ∧
       Assignment.title a = "Meskerem Day 2 - Enkutatash".
Proof.
  destruct (ethiopian_feast_resolution (utcMidnight 2024 1 2)
              (worldEthiopian feastPlan) 2 0 1
              (EthMonth.mk (Some "Meskerem") (Some "Enkutatash")
                 (Some [Entry.mk 1 "Psalm 1" None None None (Some "Meskel") None;
                        Entry.mk 2 "Psalm 2" None None None (Some EmptyString) None;
                        Entry.mk 3 "Psalm 3" None None None None None]))
              (Entry.mk 2 "Psalm 2" None None None (Some EmptyString) None)
              eq_refl eq_refl)
    as (a & Ha & _ & _ & Hmonth & Htitle & _).
  exists a. split; [exact Ha |].
  pose proof (Hmonth eq_refl) as Hfeast. simpl in Hfeast.
  split; [exact Hfeast |].
  apply (Htitle "Enkutatash" Hfeast). discriminate.
Defined.
